(** * Design Studio API: a shallow embedding of [main.py]

    The handlers of [main.py] are stateless translations of one HTTP request
    into one or two document-store calls.  This development embeds the
    documents, the store calls the handlers issue, the serialization helper
    and the handlers themselves, and states the properties of the
    specification over them. *)

From Stdlib Require Import ZArith Ascii String List Floats.
From stdpp Require Import gmap strings list fin_maps pretty.

Local Open Scope string_scope.
Local Open Scope Z_scope.

(** ** Values stored in documents *)

(** [bson.ObjectId]: the bytes of the identifier (twelve of them, when it
    was generated or read from 24 digits).  The embedding keeps the text that
    [str(oid)] prints: two lower-case hexadecimal digits for each byte. *)
Definition ObjectId := string.

(** [datetime.datetime]: the fields the Python object carries.  [tz_utc] tells
    an aware value in UTC ([datetime.now(timezone.utc)]) from a naive one. *)
Record datetime := mk_datetime {
  year : nat; month : nat; day : nat;
  hour : nat; minute : nat; second : nat; microsecond : nat;
  tz_utc : bool }.

(** The values a document field holds: Python's [None], [ObjectId], [str],
    [bool], [int], [float], [datetime], [list] and [dict]. *)
#[warnings="-register-all"]
Inductive value :=
  | VNone
  | VOid (o : ObjectId)
  | VStr (s : string)
  | VBool (b : bool)
  | VInt (z : Z)
  | VFloat (f : float)
  | VDate (t : datetime)
  | VList (l : list value)
  | VDict (d : gmap string value).

(** A document of a collection.  The store keeps the identifier under the key
    [_id]; in this application it is always an [ObjectId] generated on insert,
    and it is absent once [serialize_doc] has popped it.  The other keys are
    the dictionary [fields]. *)
Record doc := mk_doc {
  _id : option ObjectId;
  fields : gmap string value }.

(** ** Identifiers *)

Definition is_hex (c : ascii) : bool :=
  let n := nat_of_ascii c in
  ((48 <=? n) && (n <=? 57) || (65 <=? n) && (n <=? 70) || (97 <=? n) && (n <=? 102))%nat.

Definition lower (c : ascii) : ascii :=
  let n := nat_of_ascii c in
  if ((65 <=? n) && (n <=? 90))%nat then ascii_of_nat (n + 32) else c.

Definition lower_string (s : string) : string :=
  string_of_list_ascii (map lower (list_ascii_of_string s)).

(** ASCII whitespace, which [bytes.fromhex] skips: the space and the
    characters 9 to 13. *)
Definition is_space (c : ascii) : bool :=
  let n := nat_of_ascii c in
  ((n =? 32) || (9 <=? n) && (n <=? 13))%nat.

(** [bytes.fromhex(text)], the bytes kept as their digits in lower case (what
    [hexlify] prints): two hexadecimal digits for each byte, whitespace
    allowed before a byte but not between its two digits; any other
    character, or a digit left alone, is an error. *)
Fixpoint fromhex (t : list ascii) : option (list ascii) :=
  match t with
  | [] => Some []
  | c :: t' =>
      if is_space c then fromhex t'
      else
        match t' with
        | d :: t'' =>
            if is_hex c && is_hex d then
              match fromhex t'' with
              | Some r => Some (lower c :: lower d :: r)
              | None => None
              end
            else None
        | [] => None
        end
  end.

(** [ObjectId(s)] on a [str], [None] standing for [InvalidId]: the text must
    be 24 characters long and [bytes.fromhex] must accept it. *)
Definition ObjectId_parse (s : string) : option ObjectId :=
  if (String.length s =? 24)%nat then
    match fromhex (list_ascii_of_string s) with
    | Some digits => Some (string_of_list_ascii digits)
    | None => None
    end
  else None.

(** [ObjectId.is_valid] on a [str]: [ObjectId(s)] does not raise. *)
Definition ObjectId_is_valid (s : string) : bool :=
  match ObjectId_parse s with
  | Some _ => true
  | None => false
  end.

(** [str(oid)]. *)
Definition ObjectId_str (o : ObjectId) : string := o.

(** ** Zero-padded decimal fields, for [isoformat] *)

Definition zfill (width : nat) (s : string) : string :=
  String.concat "" (replicate (width - String.length s)%nat "0") +:+ s.

Definition dec (width n : nat) : string := zfill width (pretty n).

(** [datetime.isoformat()]: [YYYY-MM-DDTHH:MM:SS], then [.ffffff] when the
    microsecond field is not zero, then [+00:00] for an aware UTC value. *)
Definition isoformat (t : datetime) : string :=
  dec 4 (year t) +:+ "-" +:+ dec 2 (month t) +:+ "-" +:+ dec 2 (day t) +:+ "T" +:+
  dec 2 (hour t) +:+ ":" +:+ dec 2 (minute t) +:+ ":" +:+ dec 2 (second t) +:+
  (if Nat.eqb (microsecond t) 0 then "" else "." +:+ dec 6 (microsecond t)) +:+
  (if tz_utc t then "+00:00" else "").

(** ** The serialization helper *)

(** [str(doc.get("_id"))]: the hexadecimal text of the identifier, and
    [str(None)] when the key is absent. *)
Definition py_str (o : option ObjectId) : string :=
  match o with
  | Some x => ObjectId_str x
  | None => "None"
  end.

(** [not doc]: the dictionary has no key at all. *)
Definition doc_is_empty (d : doc) : bool :=
  match _id d with
  | Some _ => false
  | None => bool_decide (dom (fields d) = ∅)
  end.

(** The loop body of [serialize_doc]: a [datetime] becomes its ISO text, any
    other value is left as it is (only the top level is visited). *)
Definition convert_datetime (v : value) : value :=
  match v with
  | VDate t => VStr (isoformat t)
  | _ => v
  end.

(** [serialize_doc] on a dictionary
    <<
    if not doc: return doc
    doc["id"] = str(doc.get("_id"))
    doc.pop("_id", None)
    for k, v in list(doc.items()):
        if isinstance(v, datetime): doc[k] = v.isoformat()
    >> *)
Definition serialize_doc (d : doc) : doc :=
  if doc_is_empty d then d
  else {| _id := None;
          fields := convert_datetime <$> <["id" := VStr (py_str (_id d))]> (fields d) |}.

(** ** Exceptions and the handler monad *)

(** The exceptions a handler meets: FastAPI's [HTTPException], [bson]'s
    [InvalidId], and the driver's [DuplicateKeyError], [WriteError] and
    [OperationFailure].  All of them derive from Python's [Exception]. *)
Inductive exn :=
  | HTTPException (status_code : nat) (detail : string)
  | InvalidId
  | DuplicateKeyError
  | WriteError
  | OperationFailure.

Inductive result (A : Type) :=
  | Return (a : A)
  | Raise (e : exn).
Arguments Return {A} a.
Arguments Raise {A} e.

(** The whole database: collection name to documents, in store order. *)
Abbreviation db := (gmap string (list doc)).

(** A handler reads and writes the store and returns or raises. *)
Definition M (A : Type) := db -> result A * db.

Definition ret {A} (a : A) : M A := fun s => (Return a, s).
Definition raise {A} (e : exn) : M A := fun s => (Raise e, s).
Definition bind {A B} (m : M A) (k : A -> M B) : M B :=
  fun s => match m s with
           | (Return a, s') => k a s'
           | (Raise e, s') => (Raise e, s')
           end.

(** [try: body / except Exception: handler]. *)
Definition try_except {A} (body : M A) (handler : exn -> M A) : M A :=
  fun s => match body s with
           | (Return a, s') => (Return a, s')
           | (Raise e, s') => handler e s'
           end.

Notation "'let*' x ':=' m 'in' k" := (bind m (fun x => k))
  (at level 10, x name, m at level 100, k at level 200).

(** [ObjectId(s)]: raises [InvalidId] on a malformed text. *)
Definition ObjectId_new (s : string) : M ObjectId :=
  match ObjectId_parse s with
  | Some o => ret o
  | None => raise InvalidId
  end.

(** ** The document store: what the driver's calls do *)

Definition collection (s : db) (name : string) : list doc := default [] (s !! name).

(** [doc.get(k)] as a query sees it: the identifier under [_id], the other
    keys in [fields]. *)
Definition doc_get (d : doc) (k : string) : option value :=
  if String.eqb k "_id" then VOid <$> _id d else fields d !! k.

(** *** Regular expressions

    [list_products] hands the text [q] to the store as a [$regex].  The
    development gives a meaning to the patterns made of ASCII characters that
    are not PCRE metacharacters (each stands for itself) and of the dot (any
    character but a newline); text is UTF-8, so a character is a lead byte
    and its continuation bytes. *)
Inductive atom :=
  | Lit (c : ascii)
  | AnyChar.

Definition is_meta (c : ascii) : bool :=
  existsb (Ascii.eqb c) (list_ascii_of_string "\^$.|?*+()[]{}").

Definition is_ascii7 (c : ascii) : bool := (nat_of_ascii c <? 128)%nat.

Definition is_cont (c : ascii) : bool :=
  let n := nat_of_ascii c in ((128 <=? n) && (n <? 192))%nat.

Definition newline : ascii := ascii_of_nat 10.

Definition compile_char (c : ascii) : option atom :=
  if Ascii.eqb c "." then Some AnyChar
  else if is_meta c || negb (is_ascii7 c) then None
  else Some (Lit c).

Fixpoint regex_compile (p : list ascii) : option (list atom) :=
  match p with
  | [] => Some []
  | c :: p' =>
      match compile_char c, regex_compile p' with
      | Some a, Some r => Some (a :: r)
      | _, _ => None
      end
  end.

Definition char_eq (caseless : bool) (a b : ascii) : bool :=
  if caseless then Ascii.eqb (lower a) (lower b) else Ascii.eqb a b.

Fixpoint skip_cont (t : list ascii) : list ascii :=
  match t with
  | c :: t' => if is_cont c then skip_cont t' else t
  | [] => []
  end.

(** The pattern matches a prefix of the text. *)
Fixpoint match_here (caseless : bool) (r : list atom) (t : list ascii) {struct r} : bool :=
  match r, t with
  | [], _ => true
  | _ :: _, [] => false
  | Lit c :: r', x :: t' => char_eq caseless c x && match_here caseless r' t'
  | AnyChar :: r', x :: t' =>
      negb (Ascii.eqb x newline) && negb (is_cont x) && match_here caseless r' (skip_cont t')
  end.

(** An unanchored pattern matches somewhere in the text. *)
Fixpoint regex_search (caseless : bool) (r : list atom) (t : list ascii) : bool :=
  match_here caseless r t ||
  match t with
  | [] => false
  | _ :: t' => regex_search caseless r t'
  end.

(** [$options]: the letter [i] asks for a caseless match. *)
Definition caseless_option (options : string) : bool :=
  existsb (Ascii.eqb "i") (list_ascii_of_string options).

(** *** Queries *)

(** One clause of a query document: [{k: v}] for an identifier, a string or
    a boolean [v], and [{k: {"$regex": p, "$options": o}}]. *)
Inductive cond :=
  | EqOid (o : ObjectId)
  | EqStr (s : string)
  | EqBool (b : bool)
  | Regex (pattern options : string).

Definition query := list (string * cond).

Definition cond_supported (c : cond) : bool :=
  match c with
  | Regex p _ => bool_decide (is_Some (regex_compile (list_ascii_of_string p)))
  | _ => true
  end.

(** A clause against the value of its key.  The fields the handlers query
    hold scalars; the store's matching of an element of an array is not
    modelled. *)
Definition holds (c : cond) (v : option value) : bool :=
  match c, v with
  | EqOid o, Some (VOid o') => String.eqb o o'
  | EqStr s, Some (VStr s') => String.eqb s s'
  | EqBool b, Some (VBool b') => Bool.eqb b b'
  | Regex p o, Some (VStr t) =>
      match regex_compile (list_ascii_of_string p) with
      | Some r => regex_search (caseless_option o) r (list_ascii_of_string t)
      | None => false
      end
  | _, _ => false
  end.

Definition matches (q : query) (d : doc) : bool :=
  forallb (fun kc => holds (snd kc) (doc_get d (fst kc))) q.

(** [collection.find(q)]: the matching documents in store order.  A pattern
    outside the fragment above is refused, as the server refuses an
    ill-formed one. *)
Definition find (name : string) (q : query) : M (list doc) :=
  fun s =>
    if forallb (fun kc => cond_supported (snd kc)) q
    then (Return (List.filter (matches q) (collection s name)), s)
    else (Raise OperationFailure, s).

(** [cursor.limit(n)]: [0] is no limit, and a negative [n] is read as [-n]. *)
Definition cursor_limit (n : Z) (l : list doc) : list doc :=
  if n =? 0 then l else take (Z.abs_nat n) l.

(** [collection.find_one(q)]. *)
Definition find_one (name : string) (q : query) : M (option doc) :=
  let* docs := find name q in ret (head docs).

(** [collection.insert_one(data)], [o] being the identifier the driver
    generates for the new document; it goes last in store order. *)
Definition insert_one (name : string) (data : gmap string value) (o : ObjectId) : M ObjectId :=
  fun s =>
    if existsb (fun d => matches [("_id", EqOid o)] d) (collection s name)
    then (Raise DuplicateKeyError, s)
    else (Return o, <[name := (collection s name ++ [ {| _id := Some o; fields := data |} ])%list]> s).

(** *** Updates *)

(** An update document [{"$push": {...}, "$set": {...}}]. *)
Record update := mk_update {
  op_push : list (string * value);
  op_set : list (string * value) }.

(** [$push]: appends to an array, creates it when the key is absent, and is
    an error on any other value. *)
Definition apply_push (f : option (gmap string value)) (kv : string * value)
  : option (gmap string value) :=
  match f with
  | None => None
  | Some m =>
      match m !! fst kv with
      | None => Some (<[fst kv := VList [snd kv]]> m)
      | Some (VList l) => Some (<[fst kv := VList (l ++ [snd kv])%list]> m)
      | Some _ => None
      end
  end.

Definition apply_set (m : gmap string value) (kv : string * value) : gmap string value :=
  <[fst kv := snd kv]> m.

Definition apply_update (u : update) (d : doc) : option doc :=
  match foldl apply_push (Some (fields d)) (op_push u) with
  | Some m => Some {| _id := _id d; fields := foldl apply_set m (op_set u) |}
  | None => None
  end.

(** The first document that matches is replaced by its update; the count is
    the driver's [matched_count]. *)
Fixpoint update_first (p : doc -> bool) (f : doc -> option doc) (l : list doc)
  : option (nat * list doc) :=
  match l with
  | [] => Some (0%nat, [])
  | d :: l' =>
      if p d then
        match f d with
        | Some d' => Some (1%nat, d' :: l')
        | None => None
        end
      else
        match update_first p f l' with
        | Some (n, l'') => Some (n, d :: l'')
        | None => None
        end
  end.

(** [collection.update_one(q, u).matched_count]. *)
Definition update_one (name : string) (q : query) (u : update) : M nat :=
  fun s =>
    if forallb (fun kc => cond_supported (snd kc)) q then
      match update_first (matches q) (apply_update u) (collection s name) with
      | Some (O, _) => (Return 0%nat, s)
      | Some (n, l) => (Return n, <[name := l]> s)
      | None => (Raise WriteError, s)
      end
    else (Raise OperationFailure, s).

(** ** The store adapter [database.py] *)

(** Modelled from the spec: [database.create_document], which is not among
    the sources; [createDocument(collection, data) -> id] inserts the data as
    one document and returns its generated identifier as text. *)
Definition create_document (name : string) (data : gmap string value) (o : ObjectId) : M string :=
  let* i := insert_one name data o in ret (ObjectId_str i).

(** Modelled from the spec: [database.get_documents], which is not among the
    sources; [findDocuments(collection, filter, limit)] is the sequence of
    the documents the filter matches, in store order, cut by the limit. *)
Definition get_documents (name : string) (q : query) (limit : Z) : M (list doc) :=
  let* docs := find name q in ret (cursor_limit limit docs).

(** ** Request models *)

Definition opt_value {A} (f : A -> value) (o : option A) : value :=
  match o with
  | Some a => f a
  | None => VNone
  end.

Module OrderItem.
Record t := mk {
  product_id : string;
  title : string;
  price : float;
  license : string;
  quantity : Z }.

(** [i.dict()]. *)
Definition dict (i : t) : gmap string value :=
  {[ "product_id" := VStr (product_id i);
     "title" := VStr (title i);
     "price" := VFloat (price i);
     "license" := VStr (license i);
     "quantity" := VInt (quantity i) ]}.
End OrderItem.

Module CheckoutRequest.
Record t := mk {
  email : string;
  items : list OrderItem.t;
  subtotal : float;
  coupon_code : option string;
  notes : option string }.
End CheckoutRequest.

Module ProofCommentIn.
Record t := mk {
  author : string;
  message : string;
  x : option float;
  y : option float }.

Definition dict (c : t) : gmap string value :=
  {[ "author" := VStr (author c);
     "message" := VStr (message c);
     "x" := opt_value VFloat (x c);
     "y" := opt_value VFloat (y c) ]}.
End ProofCommentIn.

Module ProjectCreateIn.
Record t := mk {
  title : string;
  client_email : string;
  request_id : option string }.

Definition dict (p : t) : gmap string value :=
  {[ "title" := VStr (title p);
     "client_email" := VStr (client_email p);
     "request_id" := opt_value VStr (request_id p) ]}.
End ProjectCreateIn.

(** ** Handlers *)

(** [serialize_doc] on the result of [find_one]: [None] is returned as it is
    by the [if not doc] guard. *)
Definition serialize_doc_opt (o : option doc) : option doc := serialize_doc <$> o.

(** Python's truth value of an optional string parameter: [None] and the
    empty string are false. *)
Definition truthy (o : option string) : option string :=
  match o with
  | Some s => if String.eqb s "" then None else Some s
  | None => None
  end.

(** [if param: filter_q[k] = mk(param)]. *)
Definition clause (k : string) (mk : string -> cond) (param : option string) : query :=
  match truthy param with
  | Some s => [(k, mk s)]
  | None => []
  end.

Definition list_products (category style color q : option string) (limit : option Z)
  : M (list doc) :=
  let filter_q :=
    (clause "category" EqStr category ++ clause "style" EqStr style ++
     clause "color" EqStr color ++ clause "title" (fun s => Regex s "i") q)%list in
  let* docs := get_documents "product" filter_q (default 24 limit) in
  ret (map serialize_doc docs).

Definition featured_products (limit : option Z) : M (list doc) :=
  let* found := find "product" [("featured", EqBool true)] in
  let docs := cursor_limit (default 8 limit) found in
  ret (map serialize_doc docs).

Definition get_product (product_id : string) : M doc :=
  try_except
    (let* oid := ObjectId_new product_id in
     let* found := find_one "product" [("_id", EqOid oid)] in
     match found with
     | Some d =>
         if doc_is_empty d then raise (HTTPException 404 "Product not found")
         else ret (serialize_doc d)
     | None => raise (HTTPException 404 "Product not found")
     end)
    (fun _ => raise (HTTPException 400 "Invalid product id")).

Definition download_link (i : OrderItem.t) : string :=
  "/downloads/" +:+ OrderItem.product_id i +:+ ".zip".

Definition order_doc (payload : CheckoutRequest.t) : gmap string value :=
  {[ "email" := VStr (CheckoutRequest.email payload);
     "items" := VList (map (fun i => VDict (OrderItem.dict i)) (CheckoutRequest.items payload));
     "subtotal" := VFloat (CheckoutRequest.subtotal payload);
     "coupon_code" := opt_value VStr (CheckoutRequest.coupon_code payload);
     "notes" := opt_value VStr (CheckoutRequest.notes payload);
     "status" := VStr "paid";
     "download_links" := VList (map (fun i => VStr (download_link i)) (CheckoutRequest.items payload));
     "invoice_url" := VStr "/invoices/mock.pdf" ]}.

(** [new_id] is the identifier generated for the order. *)
Definition checkout (payload : CheckoutRequest.t) (new_id : ObjectId) : M (option doc) :=
  let* order_id := create_document "order" (order_doc payload) new_id in
  let* oid := ObjectId_new order_id in
  let* saved := find_one "order" [("_id", EqOid oid)] in
  ret (serialize_doc_opt saved).

Definition list_projects (email status : option string) (limit : option Z) : M (list doc) :=
  let q := (clause "client_email" EqStr email ++ clause "status" EqStr status)%list in
  let* found := find "project" q in
  let docs := cursor_limit (default 50 limit) found in
  ret (map serialize_doc docs).

Definition project_doc (payload : ProjectCreateIn.t) : gmap string value :=
  <["history" := VList []]> (<["comments" := VList []]> (<["drafts" := VList []]>
    (<["status" := VStr "in_progress"]> (ProjectCreateIn.dict payload)))).

Definition create_project (payload : ProjectCreateIn.t) (new_id : ObjectId) : M (option doc) :=
  let* pid := create_document "project" (project_doc payload) new_id in
  let* oid := ObjectId_new pid in
  let* saved := find_one "project" [("_id", EqOid oid)] in
  ret (serialize_doc_opt saved).

Definition draft (url : string) (now : datetime) : value :=
  VDict {[ "url" := VStr url; "uploaded_at" := VDate now ]}.

(** [now] is the reading of [datetime.now(timezone.utc)]. *)
Definition upload_draft (project_id url : string) (now : datetime) : M (option doc) :=
  let* oid := ObjectId_new project_id in
  let* matched_count :=
    update_one "project" [("_id", EqOid oid)]
      {| op_push := [("drafts", draft url now)]; op_set := [("updated_at", VDate now)] |} in
  if (matched_count =? 0)%nat then raise (HTTPException 404 "Project not found")
  else
    let* oid' := ObjectId_new project_id in
    let* found := find_one "project" [("_id", EqOid oid')] in
    ret (serialize_doc_opt found).

Definition comment_doc (payload : ProofCommentIn.t) (created_at : datetime) : value :=
  VDict (<["status" := VStr "open"]> (<["created_at" := VDate created_at]>
    (ProofCommentIn.dict payload))).

(** The clock is read twice: for the comment and for [updated_at]. *)
Definition add_comment (project_id : string) (payload : ProofCommentIn.t)
    (created_at now : datetime) : M (option doc) :=
  let* oid := ObjectId_new project_id in
  let* matched_count :=
    update_one "project" [("_id", EqOid oid)]
      {| op_push := [("comments", comment_doc payload created_at)];
         op_set := [("updated_at", VDate now)] |} in
  if (matched_count =? 0)%nat then raise (HTTPException 404 "Project not found")
  else
    let* oid' := ObjectId_new project_id in
    let* found := find_one "project" [("_id", EqOid oid')] in
    ret (serialize_doc_opt found).

Definition approve_project (project_id : string) (now : datetime) : M (option doc) :=
  let* oid := ObjectId_new project_id in
  let* matched_count :=
    update_one "project" [("_id", EqOid oid)]
      {| op_push := [];
         op_set := [("status", VStr "approved"); ("approved_at", VDate now)] |} in
  if (matched_count =? 0)%nat then raise (HTTPException 404 "Project not found")
  else
    let* oid' := ObjectId_new project_id in
    let* found := find_one "project" [("_id", EqOid oid')] in
    ret (serialize_doc_opt found).

(** ** Sequences of workflow calls *)

Inductive call :=
  | UploadDraft (project_id url : string) (now : datetime)
  | AddComment (project_id : string) (payload : ProofCommentIn.t) (created_at now : datetime)
  | Approve (project_id : string) (now : datetime).

(** The shape the three workflow handlers share: parse the identifier, update
    the project, answer 404 when nothing matched, read the project back. *)
Definition workflow_call (project_id : string) (u : update) : M (option doc) :=
  let* oid := ObjectId_new project_id in
  let* matched_count := update_one "project" [("_id", EqOid oid)] u in
  if (matched_count =? 0)%nat then raise (HTTPException 404 "Project not found")
  else
    let* oid' := ObjectId_new project_id in
    let* found := find_one "project" [("_id", EqOid oid')] in
    ret (serialize_doc_opt found).

Definition upload_draft_update (url : string) (now : datetime) : update :=
  {| op_push := [("drafts", draft url now)]; op_set := [("updated_at", VDate now)] |}.

Definition add_comment_update (payload : ProofCommentIn.t) (created_at now : datetime) : update :=
  {| op_push := [("comments", comment_doc payload created_at)];
     op_set := [("updated_at", VDate now)] |}.

Definition approve_update (now : datetime) : update :=
  {| op_push := [];
     op_set := [("status", VStr "approved"); ("approved_at", VDate now)] |}.

(** The identifier a call names and the update it sends. *)
Definition call_target (c : call) : string * update :=
  match c with
  | UploadDraft p url t => (p, upload_draft_update url t)
  | AddComment p payload t1 t2 => (p, add_comment_update payload t1 t2)
  | Approve p t => (p, approve_update t)
  end.

Definition exec (c : call) : M (option doc) :=
  match c with
  | UploadDraft p u t => upload_draft p u t
  | AddComment p c t1 t2 => add_comment p c t1 t2
  | Approve p t => approve_project p t
  end.

(** The store a call leaves, whether it returns or raises. *)
Definition after (c : call) (s : db) : db := snd (exec c s).

Definition run (cs : list call) (s : db) : db := foldl (fun s c => after c s) s cs.

Definition succeeds (c : call) (s : db) : bool :=
  match fst (exec c s) with
  | Return _ => true
  | Raise _ => false
  end.

(** The calls of a sequence all return, each in the store its predecessors left. *)
Fixpoint all_succeed (cs : list call) (s : db) : bool :=
  match cs with
  | [] => true
  | c :: cs' => succeeds c s && all_succeed cs' (after c s)
  end.

(** The project document stored under an identifier, and one of its fields. *)
Definition stored (name : string) (o : ObjectId) (s : db) : option doc :=
  head (List.filter (matches [("_id", EqOid o)]) (collection s name)).

Definition project_field (s : db) (o : ObjectId) (k : string) : option value :=
  match stored "project" o s with
  | Some d => fields d !! k
  | None => None
  end.

(** ** Notions and sample data the statements use *)

Definition sample_oid : ObjectId := "65a1b2c3d4e5f60718293a4b".
Definition other_oid : ObjectId := "000000000000000000000000".
Definition sample_project : ProjectCreateIn.t :=
  ProjectCreateIn.mk "Brand refresh" "client@example.com" None.
Definition morning : datetime := mk_datetime 2024 3 9 7 5 0 1500 true.
Definition evening : datetime := mk_datetime 2024 3 9 19 30 12 0 true.

(** A document as [find_one] returns it. *)
Definition sample_doc : doc :=
  {| _id := Some sample_oid;
     fields := {[ "title" := VStr "Logo Pack Deluxe"; "created_at" := VDate morning ]} |}.

(** The store after [create_project] on an empty database. *)
Definition sample_store : db := snd (create_project sample_project sample_oid ∅).

Definition upload_calls (pid : string) (uploads : list (string * datetime)) : list call :=
  map (fun u => UploadDraft pid (fst u) (snd u)) uploads.

Definition drafts_of (uploads : list (string * datetime)) : list value :=
  map (fun u => draft (fst u) (snd u)) uploads.

(** The flag the featured query selects on. *)
Definition is_featured (d : doc) : bool :=
  match fields d !! "featured" with
  | Some (VBool true) => true
  | _ => false
  end.

Definition rating (d : doc) : option float :=
  match fields d !! "rating" with
  | Some (VFloat r) => Some r
  | _ => None
  end.

(** The ratings never go up along the list. *)
Fixpoint sorted_by_rating_desc (l : list doc) : bool :=
  match l with
  | a :: (b :: _) as rest =>
      match rating a, rating b with
      | Some ra, Some rb => PrimFloat.leb rb ra
      | _, _ => false
      end && sorted_by_rating_desc rest
  | _ => true
  end.

Definition product (o : ObjectId) (title : string) (featured : bool) (r : float) : doc :=
  {| _id := Some o;
     fields := {[ "title" := VStr title; "category" := VStr "logos";
                  "featured" := VBool featured; "rating" := VFloat r ]} |}.

(** Three products, in the order they were inserted. *)
Definition catalogue : db :=
  {[ "product" := [ product "65a1b2c3d4e5f60718293a01" "Logo Pack Deluxe" true 3.5;
                    product "65a1b2c3d4e5f60718293a02" "Icon Set" true 4.5;
                    product "65a1b2c3d4e5f60718293a03" "Poster Kit" false 5 ] ]}.

Definition order_of (payload : CheckoutRequest.t) (o : ObjectId) : doc :=
  {| _id := Some o; fields := order_doc payload |}.

(** The cart of the specification's example. *)
Definition sample_checkout : CheckoutRequest.t :=
  CheckoutRequest.mk "client@example.com"
    [OrderItem.mk "p1" "Logo Pack" 10 "personal" 1] 10 None None.

Definition product_query (category style color q : option string) : query :=
  (clause "category" EqStr category ++ clause "style" EqStr style ++
   clause "color" EqStr color ++ clause "title" (fun s => Regex s "i") q)%list.

Definition project_query (email status : option string) : query :=
  (clause "client_email" EqStr email ++ clause "status" EqStr status)%list.

(** The document has the value the parameter asks for, when the parameter
    is given and not empty. *)
Definition passes (k : string) (param : option string) (d : doc) : Prop :=
  forall c, truthy param = Some c -> fields d !! k = Some (VStr c).

(** [q] occurs in [t] when letter case is ignored. *)
Definition contains_ci (q t : string) : Prop :=
  exists pre post,
    map lower (list_ascii_of_string t) = (pre ++ map lower (list_ascii_of_string q) ++ post)%list.

(** A text without a regular-expression metacharacter: not empty, ASCII. *)
Definition plain_char (c : ascii) : bool := negb (is_meta c) && is_ascii7 c.

Definition plain_text (q : string) : bool :=
  negb (String.eqb q "") && forallb plain_char (list_ascii_of_string q).


(** ** The remaining handlers and helpers *)

(** [PyObjectId.validate(v)] on the two kinds of input it tells apart: an
    [ObjectId], returned as it is, and a text, parsed when
    [ObjectId.is_valid] accepts it. *)
Inductive validate_input :=
  | AnObjectId (o : ObjectId)
  | AText (s : string).

Inductive validated :=
  | Valid (o : ObjectId)
  | ValueError (message : string).

Definition PyObjectId_validate (v : validate_input) : validated :=
  match v with
  | AnObjectId o => Valid o
  | AText s =>
      if negb (ObjectId_is_valid s) then ValueError "Invalid ObjectId"
      else match ObjectId_parse s with
           | Some o => Valid o
           | None => ValueError "Invalid ObjectId"
           end
  end.

Module ProductIn.
Record t := mk {
  title : string;
  description : option string;
  price : float;
  category : string;
  style : option string;
  color : option string;
  file_types : list string;
  images : list string;
  featured : bool;
  rating : float;
  in_stock : bool }.

Definition dict (p : t) : gmap string value :=
  {[ "title" := VStr (title p);
     "description" := opt_value VStr (description p);
     "price" := VFloat (price p);
     "category" := VStr (category p);
     "style" := opt_value VStr (style p);
     "color" := opt_value VStr (color p);
     "file_types" := VList (map VStr (file_types p));
     "images" := VList (map VStr (images p));
     "featured" := VBool (featured p);
     "rating" := VFloat (rating p);
     "in_stock" := VBool (in_stock p) ]}.
End ProductIn.

(** [new_id] is the identifier generated for the product. *)
Definition create_product (payload : ProductIn.t) (new_id : ObjectId) : M (option doc) :=
  let* _id := create_document "product" (ProductIn.dict payload) new_id in
  let* oid := ObjectId_new _id in
  let* found := find_one "product" [("_id", EqOid oid)] in
  ret (serialize_doc_opt found).

Module CustomRequestIn.
Record t := mk {
  name : string;
  email : string;
  project_type : string;
  references : list string;
  colors : option string;
  due_date : option string;
  budget_estimate : option float;
  details : option string }.

Definition dict (r : t) : gmap string value :=
  {[ "name" := VStr (name r);
     "email" := VStr (email r);
     "project_type" := VStr (project_type r);
     "references" := VList (map VStr (references r));
     "colors" := opt_value VStr (colors r);
     "due_date" := opt_value VStr (due_date r);
     "budget_estimate" := opt_value VFloat (budget_estimate r);
     "details" := opt_value VStr (details r) ]}.
End CustomRequestIn.

(** [payload.dict()] after [doc.update({...})]. *)
Definition custom_request_doc (payload : CustomRequestIn.t) : gmap string value :=
  <["project_id" := VNone]> (<["revision_round" := VInt 0]>
    (<["status" := VStr "new"]> (CustomRequestIn.dict payload))).

Definition request_custom (payload : CustomRequestIn.t) (new_id : ObjectId) : M (option doc) :=
  let* req_id := create_document "customrequest" (custom_request_doc payload) new_id in
  let* oid := ObjectId_new req_id in
  let* saved := find_one "customrequest" [("_id", EqOid oid)] in
  ret (serialize_doc_opt saved).

(** *** The diagnostic endpoint *)

(** What reading the attribute [name] of the database handle does: there is
    no such attribute, it has a value, or reading it raises. *)
Inductive attribute :=
  | NoAttribute
  | Attribute (v : string)
  | AttributeRaises (message : string).

(** The database handle [db] as [test_database] uses it: its attribute
    [name], and [list_collection_names()], which returns the names or raises
    an exception with a message. *)
Record handle := mk_handle {
  name_attribute : attribute;
  list_collection_names : string + list string }.

(** [text[:n]] on UTF-8 text: the first [n] characters, each a lead byte
    with its continuation bytes. *)
Fixpoint slice (n : nat) (t : list ascii) : list ascii :=
  match t with
  | [] => []
  | c :: t' =>
      if is_cont c then c :: slice n t'
      else match n with
           | O => []
           | S n' => c :: slice n' t'
           end
  end.

Definition slice_string (n : nat) (s : string) : string :=
  string_of_list_ascii (slice n (list_ascii_of_string s)).

(** [test_database()], given the global [db] ([None] or a handle) and
    [os.getenv]. *)
Definition test_database (db_global : option handle) (getenv : string -> option string)
  : gmap string value :=
  let response : gmap string value :=
    {[ "backend" := VStr "✅ Running";
       "database" := VStr "❌ Not Available";
       "database_url" := VNone;
       "database_name" := VNone;
       "connection_status" := VStr "Not Connected";
       "collections" := VList [] ]} in
  let response :=
    match db_global with
    | Some h =>
        let response := <["database" := VStr "✅ Available"]> response in
        let response := <["database_url" := VStr "✅ Configured"]> response in
        match name_attribute h with
        | AttributeRaises e =>
            <["database" := VStr ("❌ Error: " +:+ slice_string 50 e)]> response
        | a =>
            let response :=
              <["database_name" :=
                  VStr (match a with Attribute v => v | _ => "✅ Connected" end)]> response in
            let response := <["connection_status" := VStr "Connected"]> response in
            match list_collection_names h with
            | inr collections =>
                let response :=
                  <["collections" := VList (map VStr (take 10 collections))]> response in
                <["database" := VStr "✅ Connected & Working"]> response
            | inl e =>
                <["database" :=
                    VStr ("⚠️  Connected but Error: " +:+ slice_string 50 e)]> response
            end
        end
    | None => <["database" := VStr "⚠️  Available but not initialized"]> response
    end in
  let response :=
    <["database_url" :=
        VStr (match truthy (getenv "DATABASE_URL") with
              | Some _ => "✅ Set"
              | None => "❌ Not Set"
              end)]> response in
  <["database_name" :=
      VStr (match truthy (getenv "DATABASE_NAME") with
            | Some _ => "✅ Set"
            | None => "❌ Not Set"
            end)]> response.

(** ** Notions the further statements use *)

(** The identifiers of a collection, in store order. *)
Definition ids (s : db) (name : string) : list (option ObjectId) :=
  map _id (collection s name).

(** No two documents of a collection share an identifier. *)
Definition unique_ids (s : db) : Prop := forall name, NoDup (ids s name).

(** The call names the project [o]. *)
Definition aims_at (o : ObjectId) (c : call) : bool :=
  bool_decide (ObjectId_parse (fst (call_target c)) = Some o).

(** The drafts, and the comments, that the calls of a sequence send to the
    project [o], in call order. *)
Definition drafts_sent (o : ObjectId) (cs : list call) : list value :=
  omap (fun c => match c with
                 | UploadDraft _ url t => if aims_at o c then Some (draft url t) else None
                 | _ => None
                 end) cs.

Definition comments_sent (o : ObjectId) (cs : list call) : list value :=
  omap (fun c => match c with
                 | AddComment _ payload t1 _ =>
                     if aims_at o c then Some (comment_doc payload t1) else None
                 | _ => None
                 end) cs.

(** The calls of a sequence that name the project [o] all return, each in
    the store its predecessors left. *)
Fixpoint succeed_on (o : ObjectId) (cs : list call) (s : db) : bool :=
  match cs with
  | [] => true
  | c :: cs' => (if aims_at o c then succeeds c s else true) && succeed_on o cs' (after c s)
  end.

(** A pattern atom with its letter in lower case. *)
Definition lower_atom (a : atom) : atom :=
  match a with
  | Lit c => Lit (lower c)
  | AnyChar => AnyChar
  end.

(** The time a call writes to [approved_at], and to [updated_at], of the
    project [o]; and the last such time in a sequence of calls. *)
Definition approval_time (o : ObjectId) (c : call) : option datetime :=
  match c with
  | Approve _ t => if aims_at o c then Some t else None
  | _ => None
  end.

Definition update_time (o : ObjectId) (c : call) : option datetime :=
  match c with
  | UploadDraft _ _ t | AddComment _ _ _ t => if aims_at o c then Some t else None
  | Approve _ _ => None
  end.

Definition last_approval (o : ObjectId) (cs : list call) : option datetime :=
  last (omap (approval_time o) cs).

Definition last_update (o : ObjectId) (cs : list call) : option datetime :=
  last (omap (update_time o) cs).

(** The store [s'] is [s] with one document, of identifier [o], put behind
    the documents of the collection [name]. *)
Definition appended (name : string) (o : ObjectId) (s s' : db) : Prop :=
  (exists d, _id d = Some o /\ collection s' name = (collection s name ++ [d])%list) /\
  (forall n, n <> name -> s' !! n = s !! n).

(** The fields a workflow call may write. *)
Definition workflow_fields : list string :=
  ["drafts"; "comments"; "updated_at"; "status"; "approved_at"].

Definition sample_product : ProductIn.t :=
  ProductIn.mk "Logo Pack Deluxe" (Some "Forty marks") 10 "logos" None (Some "blue")
    ["svg"; "png"] [] true 4.5 true.

Definition sample_request : CustomRequestIn.t :=
  CustomRequestIn.mk "Ada" "ada@example.com" "poster" ["https://x/ref.png"]
    None (Some "2024-04-01") (Some 250%float) None.

Definition sample_comment : ProofCommentIn.t :=
  ProofCommentIn.mk "client" "Make the logo bigger" (Some 0.25%float) None.

(** * Properties *)

(** ** Serialization *)

Lemma convert_datetime_idemp (v : value) :
  convert_datetime (convert_datetime v) = convert_datetime v.
Proof. by destruct v. Qed.

Lemma doc_is_empty_spec (d : doc) :
  doc_is_empty d = true -> _id d = None /\ fields d = ∅.
Proof.
  unfold doc_is_empty. destruct (_id d); [done|].
  intros H%bool_decide_eq_true. split; [done|]. by apply dom_empty_inv_L.
Qed.

Lemma serialize_doc_nonempty (d : doc) :
  doc_is_empty d = false -> doc_is_empty (serialize_doc d) = false.
Proof.
  intros H. unfold serialize_doc. rewrite H. unfold doc_is_empty. simpl.
  apply bool_decide_eq_false. rewrite dom_fmap_L, dom_insert_L. set_solver.
Qed.

Lemma serialize_doc_id (d : doc) : _id (serialize_doc d) = None.
Proof.
  unfold serialize_doc. destruct (doc_is_empty d) eqn:E; [|done].
  by apply doc_is_empty_spec in E as [-> _].
Qed.

(** Every key but [id] keeps its value, up to the conversion of a timestamp. *)
Lemma serialize_doc_lookup (d : doc) (k : string) :
  k <> "id" -> fields (serialize_doc d) !! k = convert_datetime <$> fields d !! k.
Proof.
  intros Hk. unfold serialize_doc. destruct (doc_is_empty d) eqn:E.
  - apply doc_is_empty_spec in E as [_ ->]. by rewrite lookup_empty.
  - simpl. by rewrite lookup_fmap, lookup_insert_ne.
Qed.

Lemma serialize_doc_lookup_id (d : doc) :
  doc_is_empty d = false ->
  fields (serialize_doc d) !! "id" = Some (VStr (py_str (_id d))).
Proof.
  intros E. unfold serialize_doc. rewrite E. simpl.
  by rewrite lookup_fmap, lookup_insert_eq.
Qed.

Lemma doc_eq (d1 d2 : doc) :
  _id d1 = _id d2 -> (forall k, fields d1 !! k = fields d2 !! k) -> d1 = d2.
Proof.
  destruct d1, d2. simpl. intros -> H. f_equal. by apply map_eq.
Qed.

(** C2, counterexample: the second pass finds no [_id] and overwrites [id]
    with [str(None)]. *)
Lemma serialize_doc_twice_differs :
  fields (serialize_doc sample_doc) !! "id" = Some (VStr "65a1b2c3d4e5f60718293a4b") /\
  fields (serialize_doc (serialize_doc sample_doc)) !! "id" = Some (VStr "None") /\
  serialize_doc (serialize_doc sample_doc) <> serialize_doc sample_doc.
Proof.
  split; [by vm_compute|]. split; [by vm_compute|].
  intros H. apply (f_equal (fun d => fields d !! "id")) in H.
  vm_compute in H. discriminate.
Qed.

(** C2, amended: a second [serialize_doc] leaves the absence of [_id] and
    every key other than [id] as the first pass produced them (timestamps
    already converted stay as they are); on a document that is not empty it
    sets [id] to the text [None]; the empty document is returned as it is;
    from the second pass on the output no longer changes. *)
Theorem serialize_doc_second_pass (d : doc) :
  _id (serialize_doc (serialize_doc d)) = _id (serialize_doc d) /\
  (forall k, k <> "id" ->
     fields (serialize_doc (serialize_doc d)) !! k = fields (serialize_doc d) !! k) /\
  (doc_is_empty d = false ->
     fields (serialize_doc (serialize_doc d)) !! "id" = Some (VStr "None")) /\
  (doc_is_empty d = true ->
     serialize_doc d = d /\ serialize_doc (serialize_doc d) = serialize_doc d) /\
  serialize_doc (serialize_doc (serialize_doc d)) = serialize_doc (serialize_doc d).
Proof.
  assert (Hk : forall e k, k <> "id" ->
            fields (serialize_doc (serialize_doc e)) !! k = fields (serialize_doc e) !! k).
  { intros e k Hne. rewrite !serialize_doc_lookup by done.
    destruct (fields e !! k) as [v|]; simpl; [|done].
    by rewrite convert_datetime_idemp. }
  assert (Hid : forall e, doc_is_empty e = false ->
            fields (serialize_doc (serialize_doc e)) !! "id" = Some (VStr "None")).
  { intros e E. rewrite serialize_doc_lookup_id by by apply serialize_doc_nonempty.
    by rewrite serialize_doc_id. }
  split; [by rewrite !serialize_doc_id|].
  split; [by apply Hk|]. split; [by apply Hid|].
  split.
  - intros E. assert (Hd : serialize_doc d = d) by (unfold serialize_doc; by rewrite E).
    split; [done|]. by rewrite !Hd.
  - destruct (doc_is_empty d) eqn:E.
    + unfold serialize_doc at 3. by rewrite E.
    + apply doc_eq; [by rewrite !serialize_doc_id|].
      intros k. destruct (decide (k = "id")) as [->|Hne]; [|by apply Hk].
      rewrite (Hid d E). apply Hid. by apply serialize_doc_nonempty.
Qed.

Lemma serialize_doc_second_pass_witness :
  fields (serialize_doc (serialize_doc sample_doc)) !! "created_at" =
    fields (serialize_doc sample_doc) !! "created_at" /\
  fields (serialize_doc (serialize_doc sample_doc)) !! "id" = Some (VStr "None").
Proof.
  destruct (serialize_doc_second_pass sample_doc) as (_ & Hk & Hid & _).
  split; [apply Hk; discriminate | apply Hid; reflexivity].
Defined.

(** ** The store *)

Lemma matches_id (o : ObjectId) (d : doc) :
  matches [("_id", EqOid o)] d = bool_decide (_id d = Some o).
Proof.
  unfold matches, doc_get. simpl. rewrite andb_true_r.
  destruct (_id d) as [o'|]; simpl; [|done].
  destruct (String.eqb_spec o o') as [->|Hne].
  - by rewrite bool_decide_eq_true_2.
  - rewrite bool_decide_eq_false_2; [done|]. intros [= ->]. done.
Qed.

Lemma collection_insert (s : db) (name : string) (l : list doc) :
  collection (<[name := l]> s) name = l.
Proof. unfold collection. by rewrite lookup_insert_eq. Qed.

Lemma collection_insert_ne (s : db) (name name' : string) (l : list doc) :
  name <> name' -> collection (<[name := l]> s) name' = collection s name'.
Proof. intros H. unfold collection. by rewrite lookup_insert_ne. Qed.

Lemma find_by_id (name : string) (o : ObjectId) (s : db) :
  find_one name [("_id", EqOid o)] s = (Return (stored name o s), s).
Proof. reflexivity. Qed.

Lemma stored_elem (name : string) (o : ObjectId) (s : db) (d : doc) :
  stored name o s = Some d -> _id d = Some o /\ d ∈ collection s name.
Proof.
  unfold stored. intros H.
  assert (Hin : In d (List.filter (matches [("_id", EqOid o)]) (collection s name))).
  { destruct (List.filter _ _); simplify_eq/=. by left. }
  apply filter_In in Hin as [Hin Hm]. rewrite matches_id in Hm.
  apply bool_decide_eq_true in Hm. split; [done|]. by apply list_elem_of_In.
Qed.

(** What [update_first] does when the predicate selects by identifier and the
    update keeps the identifier. *)
Lemma update_first_by_id (o : ObjectId) (f : doc -> option doc) (l : list doc) :
  (forall d d', f d = Some d' -> _id d' = _id d) ->
  match head (List.filter (matches [("_id", EqOid o)]) l) with
  | None => update_first (matches [("_id", EqOid o)]) f l = Some (0%nat, l)
  | Some d =>
      match f d with
      | None => update_first (matches [("_id", EqOid o)]) f l = None
      | Some d' =>
          exists l',
            update_first (matches [("_id", EqOid o)]) f l = Some (1%nat, l') /\
            head (List.filter (matches [("_id", EqOid o)]) l') = Some d' /\
            (forall o', o' <> o ->
               head (List.filter (matches [("_id", EqOid o')]) l') =
               head (List.filter (matches [("_id", EqOid o')]) l))
      end
  end.
Proof.
  intros Hid. induction l as [|d l IH]; [done|].
  cbn [List.filter update_first].
  destruct (matches [("_id", EqOid o)] d) eqn:Hm.
  - cbn [head]. destruct (f d) as [d'|] eqn:Hf; [|done].
    exists (d' :: l). split; [done|].
    rewrite matches_id in Hm. apply bool_decide_eq_true in Hm.
    pose proof (Hid _ _ Hf) as Hd'. split.
    + cbn [List.filter]. rewrite matches_id, bool_decide_eq_true_2; [done|congruence].
    + intros o' Hne. cbn [List.filter]. rewrite !matches_id.
      rewrite !bool_decide_eq_false_2; [done| |]; congruence.
  - destruct (head (List.filter (matches [("_id", EqOid o)]) l)) as [e|] eqn:He.
    + destruct (f e) as [e'|] eqn:Hf.
      * destruct IH as (l' & -> & Hs & Ho). exists (d :: l').
        split; [done|]. split.
        -- cbn [List.filter]. by rewrite Hm.
        -- intros o' Hne. cbn [List.filter].
           destruct (matches [("_id", EqOid o')] d); [done|]. by apply Ho.
      * by rewrite IH.
    + by rewrite IH.
Qed.

Lemma apply_update_id (u : update) (d d' : doc) :
  apply_update u d = Some d' -> _id d' = _id d.
Proof.
  unfold apply_update. destruct (foldl _ _ _); [|done]. by intros [= <-].
Qed.

(** [update_one] with a query on the identifier: nothing matches and the
    store is left alone, or the update is an error and the store is left
    alone, or the stored document is replaced by its update and every other
    document and collection is as before. *)
Lemma update_one_by_id (name : string) (o : ObjectId) (u : update) (s : db) :
  match stored name o s with
  | None => update_one name [("_id", EqOid o)] u s = (Return 0%nat, s)
  | Some d =>
      match apply_update u d with
      | None => update_one name [("_id", EqOid o)] u s = (Raise WriteError, s)
      | Some d' =>
          exists s',
            update_one name [("_id", EqOid o)] u s = (Return 1%nat, s') /\
            stored name o s' = Some d' /\
            (forall o', o' <> o -> stored name o' s' = stored name o' s) /\
            (forall n, n <> name -> s' !! n = s !! n)
      end
  end.
Proof.
  pose proof (update_first_by_id o (apply_update u) (collection s name)
                (apply_update_id u)) as H.
  unfold stored, update_one. cbn [forallb cond_supported snd andb].
  destruct (head (List.filter (matches [("_id", EqOid o)]) (collection s name)))
    as [d|]; [|by rewrite H].
  destruct (apply_update u d) as [d'|]; [|by rewrite H].
  destruct H as (l' & -> & Hs & Ho).
  exists (<[name := l']> s). split; [done|].
  rewrite collection_insert. split; [done|]. split; [done|].
  intros n Hn. by rewrite lookup_insert_ne.
Qed.

(** ** The workflow handlers *)

Lemma exec_workflow_call (c : call) :
  exec c = workflow_call (fst (call_target c)) (snd (call_target c)).
Proof. by destruct c. Qed.

(** The four outcomes of a workflow handler. *)
Lemma workflow_call_spec (pid : string) (u : update) (s : db) :
  match ObjectId_parse pid with
  | None => workflow_call pid u s = (Raise InvalidId, s)
  | Some o =>
      match stored "project" o s with
      | None =>
          workflow_call pid u s = (Raise (HTTPException 404 "Project not found"), s)
      | Some d =>
          match apply_update u d with
          | None => workflow_call pid u s = (Raise WriteError, s)
          | Some d' =>
              exists s',
                workflow_call pid u s = (Return (Some (serialize_doc d')), s') /\
                stored "project" o s' = Some d' /\
                (forall o', o' <> o -> stored "project" o' s' = stored "project" o' s) /\
                (forall n, n <> "project" -> s' !! n = s !! n)
          end
      end
  end.
Proof.
  unfold workflow_call, bind, ObjectId_new.
  destruct (ObjectId_parse pid) as [o|]; [|done].
  cbn [ret]. pose proof (update_one_by_id "project" o u s) as H.
  destruct (stored "project" o s) as [d|]; [|by rewrite H].
  destruct (apply_update u d) as [d'|]; [|by rewrite H].
  destruct H as (s' & -> & Hs & Ho & Hn). exists s'.
  cbn [Nat.eqb]. rewrite find_by_id, Hs. done.
Qed.

(** A field of a stored project after a workflow call: as before, or the
    field of the updated document when the call reached this project. *)
Lemma workflow_call_field (pid : string) (u : update) (s : db) (o : ObjectId) (k : string) :
  project_field (snd (workflow_call pid u s)) o k = project_field s o k \/
  exists d d',
    ObjectId_parse pid = Some o /\ stored "project" o s = Some d /\
    apply_update u d = Some d' /\
    project_field (snd (workflow_call pid u s)) o k = fields d' !! k.
Proof.
  pose proof (workflow_call_spec pid u s) as H.
  destruct (ObjectId_parse pid) as [o0|]; [|left; by rewrite H].
  destruct (stored "project" o0 s) as [d|] eqn:Hd; [|left; by rewrite H].
  destruct (apply_update u d) as [d'|] eqn:Hu; [|left; by rewrite H].
  destruct H as (s' & -> & Hs & Ho & _). cbn [snd].
  destruct (decide (o = o0)) as [->|Hne].
  - right. exists d, d'. unfold project_field. by rewrite Hs.
  - left. unfold project_field. by rewrite Ho.
Qed.

Lemma apply_update_upload (url : string) (now : datetime) (d d' : doc) :
  apply_update (upload_draft_update url now) d = Some d' ->
  exists l,
    (fields d !! "drafts" = None /\ l = [] \/ fields d !! "drafts" = Some (VList l)) /\
    fields d' = <["updated_at" := VDate now]>
                  (<["drafts" := VList (l ++ [draft url now])]> (fields d)).
Proof.
  unfold apply_update, upload_draft_update. cbn.
  destruct (fields d !! "drafts") as [[]|] eqn:E; intros [= <-]; eauto.
Qed.

Lemma apply_update_comment (payload : ProofCommentIn.t) (t1 t2 : datetime) (d d' : doc) :
  apply_update (add_comment_update payload t1 t2) d = Some d' ->
  exists l,
    fields d' = <["updated_at" := VDate t2]> (<["comments" := VList l]> (fields d)).
Proof.
  unfold apply_update, add_comment_update. cbn.
  destruct (fields d !! "comments") as [[]|] eqn:E; intros [= <-]; eauto.
Qed.

Lemma apply_update_approve (now : datetime) (d : doc) :
  apply_update (approve_update now) d =
  Some {| _id := _id d;
          fields := <["approved_at" := VDate now]> (<["status" := VStr "approved"]> (fields d)) |}.
Proof. reflexivity. Qed.

Lemma stored_none_existsb (name : string) (o : ObjectId) (s : db) :
  stored name o s = None ->
  existsb (fun d => matches [("_id", EqOid o)] d) (collection s name) = false.
Proof.
  unfold stored. induction (collection s name) as [|d l IH]; [done|].
  cbn [List.filter existsb]. destruct (matches _ d); [done|]. by apply IH.
Qed.

Lemma head_filter_app_none {A} (p : A -> bool) (l1 l2 : list A) :
  head (List.filter p l1) = None ->
  head (List.filter p (l1 ++ l2)) = head (List.filter p l2).
Proof.
  induction l1 as [|a l1 IH]; [done|]. cbn [List.filter app].
  destruct (p a); [done|]. apply IH.
Qed.

Lemma head_filter_app_last {A} (p : A -> bool) (l : list A) (a : A) :
  p a = false -> head (List.filter p (l ++ [a])) = head (List.filter p l).
Proof.
  intros Ha. induction l as [|b l IH]; cbn [List.filter app].
  - by rewrite Ha.
  - destruct (p b); [done|]. apply IH.
Qed.

(** Inserting under an identifier that is not yet in the collection. *)
Lemma insert_one_fresh (name : string) (data : gmap string value) (o : ObjectId) (s : db) :
  stored name o s = None ->
  exists s',
    insert_one name data o s = (Return o, s') /\
    stored name o s' = Some {| _id := Some o; fields := data |} /\
    (forall o', o' <> o -> stored name o' s' = stored name o' s) /\
    (forall n, n <> name -> s' !! n = s !! n).
Proof.
  intros Hfresh. unfold insert_one. rewrite (stored_none_existsb _ _ _ Hfresh).
  eexists. split; [done|]. unfold stored in *. rewrite collection_insert.
  split; [|split].
  - rewrite head_filter_app_none by done. cbn [List.filter].
    by rewrite matches_id, bool_decide_eq_true_2.
  - intros o' Hne. apply head_filter_app_last.
    rewrite matches_id. apply bool_decide_eq_false_2. simpl. congruence.
  - intros n Hn. by rewrite lookup_insert_ne.
Qed.

(** [create_project] with a well-formed identifier that is not yet used. *)
Lemma create_project_fresh (payload : ProjectCreateIn.t) (o : ObjectId) (s : db) :
  ObjectId_parse o = Some o -> stored "project" o s = None ->
  exists s',
    create_project payload o s =
      (Return (Some (serialize_doc {| _id := Some o; fields := project_doc payload |})), s') /\
    stored "project" o s' = Some {| _id := Some o; fields := project_doc payload |} /\
    (forall n, n <> "project" -> s' !! n = s !! n).
Proof.
  intros Hwf Hfresh.
  destruct (insert_one_fresh "project" (project_doc payload) o s Hfresh)
    as (s' & Hins & Hs & _ & Hn).
  exists s'. split; [|done].
  unfold create_project, create_document, bind. rewrite Hins. cbn [ret].
  unfold ObjectId_new, ObjectId_str. rewrite Hwf. cbn [ret].
  by rewrite find_by_id, Hs.
Qed.

Lemma project_doc_lookup (payload : ProjectCreateIn.t) :
  project_doc payload !! "status" = Some (VStr "in_progress") /\
  project_doc payload !! "drafts" = Some (VList []) /\
  project_doc payload !! "approved_at" = None.
Proof. by vm_compute. Qed.

Lemma after_unfold (c : call) (s : db) :
  after c s = snd (workflow_call (fst (call_target c)) (snd (call_target c)) s).
Proof. unfold after. by rewrite exec_workflow_call. Qed.

(** A call that is not an approval leaves the fields [status] and
    [approved_at] of every stored project as they are. *)
Lemma after_not_approve (c : call) (s : db) (o : ObjectId) (k : string) :
  (forall p t, c <> Approve p t) -> k = "status" \/ k = "approved_at" ->
  project_field (after c s) o k = project_field s o k.
Proof.
  intros Hc Hk. rewrite after_unfold.
  destruct (workflow_call_field (fst (call_target c)) (snd (call_target c)) s o k)
    as [H|(d & d' & _ & Hd & Hu & ->)]; [done|].
  unfold project_field. rewrite Hd.
  destruct c as [p url t|p payload t1 t2|p t]; cbn [call_target snd] in Hu.
  - apply apply_update_upload in Hu as (l & _ & ->).
    destruct Hk as [-> | ->]; by rewrite !lookup_insert_ne.
  - apply apply_update_comment in Hu as (l & ->).
    destruct Hk as [-> | ->]; by rewrite !lookup_insert_ne.
  - by destruct (Hc p t).
Qed.

Lemma after_keeps_approved (c : call) (s : db) (o : ObjectId) :
  project_field s o "status" = Some (VStr "approved") ->
  project_field (after c s) o "status" = Some (VStr "approved").
Proof.
  intros Hs. destruct c as [p url t|p payload t1 t2|p t];
    try (rewrite after_not_approve; [done|congruence|by left]).
  rewrite after_unfold.
  destruct (workflow_call_field p (approve_update t) s o "status")
    as [H|(d & d' & _ & Hd & Hu & H)]; cbn [call_target fst snd]; [congruence|].
  rewrite H. rewrite apply_update_approve in Hu. injection Hu as <-.
  cbn [fields]. by rewrite lookup_insert_ne, lookup_insert_eq.
Qed.

Lemma run_app (cs1 cs2 : list call) (s : db) :
  run (cs1 ++ cs2) s = run cs2 (run cs1 s).
Proof. unfold run. by rewrite foldl_app. Qed.

Lemma run_keeps_approved (cs : list call) (s : db) (o : ObjectId) :
  project_field s o "status" = Some (VStr "approved") ->
  project_field (run cs s) o "status" = Some (VStr "approved").
Proof.
  revert s. induction cs as [|c cs IH]; intros s Hs; [done|].
  apply IH. by apply after_keeps_approved.
Qed.

Lemma after_status (c : call) (s : db) (o : ObjectId) :
  project_field (after c s) o "status" = project_field s o "status" \/
  project_field (after c s) o "status" = Some (VStr "approved").
Proof.
  destruct c as [p url t|p payload t1 t2|p t];
    try (left; rewrite after_not_approve; [done|congruence|by left]).
  rewrite after_unfold.
  destruct (workflow_call_field p (approve_update t) s o "status")
    as [H|(d & d' & _ & Hd & Hu & H)]; cbn [call_target fst snd]; [by left|].
  right. rewrite H. rewrite apply_update_approve in Hu. injection Hu as <-.
  cbn [fields]. by rewrite lookup_insert_ne, lookup_insert_eq.
Qed.

(** ** Approval *)

(** C5: on an identifier text that [ObjectId()] accepts, [approve_project]
    answers 404 and leaves the store as it is when no project has the
    identifier; otherwise, whatever the stored status, the stored project
    gets [status = "approved"] and [approved_at = now], its other fields
    stay, and the handler returns its serialization.  (A text that
    [ObjectId()] rejects raises [InvalidId]; the store is left as it is as
    well.) *)
Theorem approve_project_spec (pid : string) (now : datetime) (s : db) :
  match ObjectId_parse pid with
  | Some o =>
      match stored "project" o s with
      | Some d =>
          exists d' s',
            approve_project pid now s = (Return (Some (serialize_doc d')), s') /\
            stored "project" o s' = Some d' /\
            fields d' !! "status" = Some (VStr "approved") /\
            fields d' !! "approved_at" = Some (VDate now) /\
            (forall k, k <> "status" -> k <> "approved_at" ->
               fields d' !! k = fields d !! k) /\
            (forall o', o' <> o -> stored "project" o' s' = stored "project" o' s)
      | None =>
          approve_project pid now s = (Raise (HTTPException 404 "Project not found"), s)
      end
  | None => approve_project pid now s = (Raise InvalidId, s)
  end.
Proof.
  change (approve_project pid now) with (workflow_call pid (approve_update now)).
  pose proof (workflow_call_spec pid (approve_update now) s) as H.
  destruct (ObjectId_parse pid) as [o|]; [|done].
  destruct (stored "project" o s) as [d|]; [|done].
  rewrite apply_update_approve in H. destruct H as (s' & H & Hs & Ho & _).
  eexists _, s'. split; [exact H|]. split; [exact Hs|]. cbn [fields].
  split; [by rewrite lookup_insert_ne, lookup_insert_eq|].
  split; [by rewrite lookup_insert_eq|]. split; [|done].
  intros k H1 H2. by rewrite !lookup_insert_ne.
Qed.

Lemma approve_project_spec_witness :
  fst (approve_project other_oid morning sample_store) =
    Raise (HTTPException 404 "Project not found") /\
  exists d', stored "project" sample_oid (snd (approve_project sample_oid morning sample_store))
               = Some d' /\
             fields d' !! "status" = Some (VStr "approved").
Proof.
  split.
  - pose proof (approve_project_spec other_oid morning sample_store) as H.
    vm_compute ObjectId_parse in H. vm_compute stored in H. by rewrite H.
  - pose proof (approve_project_spec sample_oid morning sample_store) as H.
    vm_compute ObjectId_parse in H.
    destruct (stored "project" sample_oid sample_store) eqn:E; [|by vm_compute in E].
    destruct H as (d' & s' & -> & Hs & Hst & _). by exists d'.
Defined.

(** C4, counterexample: a second approval replaces the [approved_at] the
    first one wrote. *)
Lemma approve_twice_overwrites :
  project_field (run [Approve sample_oid morning] sample_store) sample_oid "approved_at"
    = Some (VDate morning) /\
  project_field (run [Approve sample_oid morning; Approve sample_oid evening] sample_store)
    sample_oid "approved_at" = Some (VDate evening) /\
  VDate evening <> VDate morning.
Proof. split; [by vm_compute|]. split; [by vm_compute|]. discriminate. Qed.

(** C4, amended: [approved_at] is written by approval only.  A project has
    none when it is created, [upload_draft] and [add_comment] never change
    the [approved_at] of any project, and every approval of an existing
    project, the first as a later one, sets it to the time of that call. *)
Theorem approved_at_written_by_approval :
  (forall payload o s,
     ObjectId_parse o = Some o -> stored "project" o s = None ->
     project_field (snd (create_project payload o s)) o "approved_at" = None) /\
  (forall c s o,
     (forall p t, c <> Approve p t) ->
     project_field (after c s) o "approved_at" = project_field s o "approved_at") /\
  (forall pid o now s,
     ObjectId_parse pid = Some o -> is_Some (stored "project" o s) ->
     project_field (after (Approve pid now) s) o "approved_at" = Some (VDate now)).
Proof.
  split; [|split].
  - intros payload o s Hwf Hfresh.
    destruct (create_project_fresh payload o s Hwf Hfresh) as (s' & -> & Hs & _).
    unfold project_field. cbn [snd]. rewrite Hs. apply project_doc_lookup.
  - intros c s o Hc. apply after_not_approve; [done|by right].
  - intros pid o now s Hp [d Hd]. unfold after. cbn [exec].
    change (approve_project pid now) with (workflow_call pid (approve_update now)).
    pose proof (workflow_call_spec pid (approve_update now) s) as H.
    rewrite Hp, Hd, apply_update_approve in H. destruct H as (s' & -> & Hs & _).
    unfold project_field. cbn [snd]. rewrite Hs. cbn [fields].
    by rewrite lookup_insert_eq.
Qed.

Lemma approved_at_written_by_approval_witness :
  project_field sample_store sample_oid "approved_at" = None /\
  project_field (after (UploadDraft sample_oid "https://x/d1.png" morning) sample_store)
    sample_oid "approved_at" = project_field sample_store sample_oid "approved_at" /\
  project_field (after (Approve sample_oid evening) sample_store) sample_oid "approved_at"
    = Some (VDate evening).
Proof.
  destruct approved_at_written_by_approval as (H1 & H2 & H3).
  split; [|split].
  - apply (H1 sample_project sample_oid ∅); reflexivity.
  - apply H2. discriminate.
  - apply H3; [reflexivity|]. eexists. vm_compute. reflexivity.
Defined.

(** ** Status transitions *)

(** C9: [upload_draft] and [add_comment] leave the status of every project
    as it is; a project that is approved stays approved under any call and
    any sequence of calls; and a project created by [create_project] has
    status [in_progress] or [approved] after any sequence of workflow calls
    (on any identifiers, whether they return or raise). *)
Theorem project_status_forward :
  (forall c s o,
     (forall p t, c <> Approve p t) ->
     project_field (after c s) o "status" = project_field s o "status") /\
  (forall cs s o,
     project_field s o "status" = Some (VStr "approved") ->
     project_field (run cs s) o "status" = Some (VStr "approved")) /\
  (forall payload o s cs,
     ObjectId_parse o = Some o -> stored "project" o s = None ->
     project_field (run cs (snd (create_project payload o s))) o "status"
       = Some (VStr "in_progress") \/
     project_field (run cs (snd (create_project payload o s))) o "status"
       = Some (VStr "approved")).
Proof.
  split; [|split].
  - intros c s o Hc. apply after_not_approve; [done|by left].
  - intros cs s o. apply run_keeps_approved.
  - intros payload o s cs Hwf Hfresh.
    destruct (create_project_fresh payload o s Hwf Hfresh) as (s' & -> & Hs & _).
    cbn [snd].
    assert (H0 : project_field s' o "status" = Some (VStr "in_progress")).
    { unfold project_field. rewrite Hs. apply project_doc_lookup. }
    clear Hs Hfresh. revert s' H0.
    induction cs as [|c cs IH]; intros s' H0; [by left|].
    change (run (c :: cs) s') with (run cs (after c s')).
    destruct (after_status c s' o) as [H|H].
    + apply IH. by rewrite H.
    + right. by apply run_keeps_approved.
Qed.

Lemma project_status_forward_witness :
  project_field
    (run [UploadDraft sample_oid "https://x/d1.png" morning;
          Approve sample_oid morning;
          UploadDraft sample_oid "https://x/d2.png" evening]
       (run [Approve sample_oid morning] sample_store))
    sample_oid "status" = Some (VStr "approved").
Proof.
  destruct project_status_forward as (_ & H & _).
  apply H. vm_compute. reflexivity.
Defined.

(** ** Drafts *)

(** One upload on a stored project whose [drafts] is an array. *)
Lemma upload_draft_step (pid : string) (o : ObjectId) (url : string) (now : datetime)
    (s : db) (d : doc) (l : list value) :
  ObjectId_parse pid = Some o -> stored "project" o s = Some d ->
  fields d !! "drafts" = Some (VList l) ->
  exists d',
    upload_draft pid url now s =
      (Return (Some (serialize_doc d')), after (UploadDraft pid url now) s) /\
    stored "project" o (after (UploadDraft pid url now) s) = Some d' /\
    fields d' = <["updated_at" := VDate now]>
                  (<["drafts" := VList (l ++ [draft url now])]> (fields d)).
Proof.
  intros Hp Hd Hl. unfold after. cbn [exec].
  change (upload_draft pid url now) with (workflow_call pid (upload_draft_update url now)).
  pose proof (workflow_call_spec pid (upload_draft_update url now) s) as H.
  rewrite Hp, Hd in H.
  destruct (apply_update (upload_draft_update url now) d) as [d'|] eqn:Hu.
  - destruct H as (s' & -> & Hs & _). exists d'. cbn [snd]. split; [done|].
    split; [done|].
    apply apply_update_upload in Hu as (l' & [[Hn _]|Hl'] & ->); congruence.
  - unfold apply_update, upload_draft_update in Hu. cbn in Hu.
    by rewrite Hl in Hu.
Qed.

Lemma upload_calls_run (pid : string) (o : ObjectId) (uploads : list (string * datetime))
    (s : db) (d : doc) (l : list value) :
  ObjectId_parse pid = Some o -> stored "project" o s = Some d ->
  fields d !! "drafts" = Some (VList l) ->
  all_succeed (upload_calls pid uploads) s = true /\
  project_field (run (upload_calls pid uploads) s) o "drafts"
    = Some (VList (l ++ drafts_of uploads)).
Proof.
  intros Hp. revert s d l.
  induction uploads as [|[url now] uploads IH]; intros s d l Hd Hl.
  - split; [done|]. unfold project_field. cbn. by rewrite Hd, app_nil_r.
  - destruct (upload_draft_step pid o url now s d l Hp Hd Hl) as (d' & Hr & Hs & Hf).
    cbn [upload_calls map fst snd all_succeed].
    change (run (UploadDraft pid url now :: map _ uploads) s)
      with (run (upload_calls pid uploads) (after (UploadDraft pid url now) s)).
    assert (Hl' : fields d' !! "drafts" = Some (VList (l ++ [draft url now]))).
    { rewrite Hf. by rewrite lookup_insert_ne, lookup_insert_eq. }
    destruct (IH _ _ _ Hs Hl') as [Hall Hfield]. split.
    + unfold succeeds. cbn [exec]. rewrite Hr. cbn [fst]. exact Hall.
    + rewrite Hfield. cbn [drafts_of map fst snd]. by rewrite <- app_assoc.
Qed.

(** C8: on a project created by [create_project], any [N] upload calls all
    return and leave [drafts] with exactly the [N] uploads in call order; and
    one upload on any stored project appends its draft behind the drafts
    already there, sets [updated_at] to the time of the call and leaves every
    other field as it is. *)
Theorem upload_draft_appends :
  (forall payload o s uploads,
     ObjectId_parse o = Some o -> stored "project" o s = None ->
     all_succeed (upload_calls o uploads) (snd (create_project payload o s)) = true /\
     project_field (run (upload_calls o uploads) (snd (create_project payload o s))) o "drafts"
       = Some (VList (drafts_of uploads)) /\
     length (drafts_of uploads) = length uploads) /\
  (forall pid o url now s d l,
     ObjectId_parse pid = Some o -> stored "project" o s = Some d ->
     fields d !! "drafts" = Some (VList l) ->
     exists d',
       fst (upload_draft pid url now s) = Return (Some (serialize_doc d')) /\
       stored "project" o (snd (upload_draft pid url now s)) = Some d' /\
       fields d' !! "drafts" = Some (VList (l ++ [draft url now])) /\
       fields d' !! "updated_at" = Some (VDate now) /\
       (forall k, k <> "drafts" -> k <> "updated_at" -> fields d' !! k = fields d !! k)).
Proof.
  split.
  - intros payload o s uploads Hwf Hfresh.
    destruct (create_project_fresh payload o s Hwf Hfresh) as (s' & -> & Hs & _).
    cbn [snd].
    destruct (upload_calls_run o o uploads s' _ [] Hwf Hs) as [Hall Hf].
    { apply project_doc_lookup. }
    split; [done|]. split; [done|]. unfold drafts_of. by rewrite length_map.
  - intros pid o url now s d l Hp Hd Hl.
    destruct (upload_draft_step pid o url now s d l Hp Hd Hl) as (d' & Hr & Hs & Hf).
    exists d'. rewrite Hr. cbn [fst snd]. split; [done|]. split; [done|].
    rewrite Hf. split; [by rewrite lookup_insert_ne, lookup_insert_eq|].
    split; [by rewrite lookup_insert_eq|].
    intros k H1 H2. by rewrite !lookup_insert_ne.
Qed.

Lemma upload_draft_appends_witness :
  project_field
    (run (upload_calls sample_oid [("https://x/d1.png", morning); ("https://x/d2.png", evening)])
       sample_store)
    sample_oid "drafts"
  = Some (VList [draft "https://x/d1.png" morning; draft "https://x/d2.png" evening]).
Proof.
  destruct upload_draft_appends as [H _].
  destruct (H sample_project sample_oid ∅
              [("https://x/d1.png", morning); ("https://x/d2.png", evening)])
    as (_ & Hd & _); [reflexivity|reflexivity|].
  exact Hd.
Defined.

(** ** Products *)

(** [get_product] on every input: the [except Exception] clause also catches
    the 404 raised inside the [try], so a missing product is answered like a
    malformed identifier. *)
Lemma get_product_spec (pid : string) (s : db) :
  match ObjectId_parse pid with
  | Some o =>
      match stored "product" o s with
      | Some d => get_product pid s = (Return (serialize_doc d), s)
      | None => get_product pid s = (Raise (HTTPException 400 "Invalid product id"), s)
      end
  | None => get_product pid s = (Raise (HTTPException 400 "Invalid product id"), s)
  end.
Proof.
  unfold get_product, try_except, bind, ObjectId_new.
  destruct (ObjectId_parse pid) as [o|]; [|done].
  cbn [ret]. rewrite find_by_id.
  destruct (stored "product" o s) as [d|] eqn:Hd; [|done].
  apply stored_elem in Hd as [Hid _]. unfold doc_is_empty. by rewrite Hid.
Qed.

(** C1, the code at the failing input: a well-formed identifier that no
    product has is answered with status 400, as a malformed one is. *)
Theorem get_product_missing_answers_400 :
  ObjectId_is_valid other_oid = true /\
  stored "product" other_oid sample_store = None /\
  get_product other_oid sample_store =
    (Raise (HTTPException 400 "Invalid product id"), sample_store) /\
  get_product "not-an-id" sample_store =
    (Raise (HTTPException 400 "Invalid product id"), sample_store).
Proof. by vm_compute. Qed.

(** C3, counterexample: two featured products stored with ratings 3.5 and
    4.5 come back in that order. *)
Lemma featured_products_in_store_order :
  exists docs,
    fst (featured_products None catalogue) = Return docs /\
    map rating docs = [Some 3.5%float; Some 4.5%float] /\
    sorted_by_rating_desc docs = false.
Proof. eexists. split; [reflexivity|]. by vm_compute. Qed.

Lemma matches_featured (d : doc) : matches [("featured", EqBool true)] d = is_featured d.
Proof.
  unfold matches, is_featured, doc_get. simpl. rewrite andb_true_r.
  by destruct (fields d !! "featured") as [[| | |[]| | | | |]|].
Qed.

Lemma filter_sublist {A} (p : A -> bool) (l : list A) : sublist (List.filter p l) l.
Proof.
  induction l as [|a l IH]; [constructor|]. cbn [List.filter].
  destruct (p a); by constructor.
Qed.

Lemma cursor_limit_sublist (n : Z) (l : list doc) : sublist (cursor_limit n l) l.
Proof. unfold cursor_limit. destruct (n =? 0); [done|]. apply sublist_take. Qed.

Lemma serialize_doc_keeps (d : doc) (k : string) (v : value) :
  k <> "id" -> (forall t, v <> VDate t) ->
  fields d !! k = Some v -> fields (serialize_doc d) !! k = Some v.
Proof.
  intros Hk Hv H. rewrite serialize_doc_lookup, H by done. simpl.
  destruct v; try done. by destruct (Hv t).
Qed.

(** C3, amended: [featured_products] returns the serializations of the
    products whose [featured] flag is set, in store order (it asks for no
    sort), cut by the limit; the limit is 8 when none is given. *)
Theorem featured_products_spec (limit : option Z) (s : db) :
  exists docs,
    featured_products limit s = (Return (map serialize_doc docs), s) /\
    docs = cursor_limit (default 8 limit) (List.filter is_featured (collection s "product")) /\
    sublist docs (collection s "product") /\
    Forall (fun d => fields d !! "featured" = Some (VBool true)) docs /\
    Forall (fun r => fields r !! "featured" = Some (VBool true)) (map serialize_doc docs) /\
    (limit = None ->
     docs = take 8 (List.filter is_featured (collection s "product"))).
Proof.
  eexists. split; [reflexivity|].
  assert (Hf : Forall (fun d => fields d !! "featured" = Some (VBool true))
                 (cursor_limit (default 8 limit)
                    (List.filter (matches [("featured", EqBool true)]) (collection s "product")))).
  { apply Forall_forall. intros d Hd.
    eapply elem_of_sublist in Hd; [|apply cursor_limit_sublist].
    apply list_elem_of_In, filter_In in Hd as [_ Hd]. rewrite matches_featured in Hd.
    unfold is_featured in Hd.
    by destruct (fields d !! "featured") as [[| | |[]| | | | |]|]. }
  split; [|split; [|split; [|split]]].
  - f_equal. apply filter_ext. intros d. apply matches_featured.
  - etrans; [apply cursor_limit_sublist|apply filter_sublist].
  - exact Hf.
  - apply Forall_map. eapply Forall_impl; [exact Hf|]. cbn. intros d Hd.
    apply serialize_doc_keeps; done.
  - intros ->. cbn. f_equal. apply filter_ext. intros d. apply matches_featured.
Qed.

(** ** Checkout *)

Lemma order_doc_lookup (payload : CheckoutRequest.t) :
  order_doc payload !! "status" = Some (VStr "paid") /\
  order_doc payload !! "subtotal" = Some (VFloat (CheckoutRequest.subtotal payload)) /\
  order_doc payload !! "download_links" =
    Some (VList (map (fun i => VStr (download_link i)) (CheckoutRequest.items payload))) /\
  order_doc payload !! "invoice_url" = Some (VStr "/invoices/mock.pdf").
Proof. by vm_compute. Qed.

Lemma checkout_fresh (payload : CheckoutRequest.t) (o : ObjectId) (s : db) :
  ObjectId_parse o = Some o -> stored "order" o s = None ->
  checkout payload o s =
    (Return (Some (serialize_doc (order_of payload o))),
     <["order" := (collection s "order" ++ [order_of payload o])%list]> s).
Proof.
  intros Hwf Hfresh.
  destruct (insert_one_fresh "order" (order_doc payload) o s Hfresh) as (s' & Hins & Hs & _).
  unfold checkout, create_document, bind. rewrite Hins. cbn [ret].
  unfold ObjectId_new, ObjectId_str. rewrite Hwf. cbn [ret].
  rewrite find_by_id, Hs.
  unfold insert_one in Hins. rewrite (stored_none_existsb _ _ _ Hfresh) in Hins.
  by injection Hins as <-.
Qed.

(** C6: for every checkout request and every fresh, well-formed order
    identifier, [checkout] returns an order with status [paid], the
    request's subtotal, one link [/downloads/{product_id}.zip] per item in
    item order and the invoice path [/invoices/mock.pdf]; the product
    collection is not written, and its content has no influence on the
    result (no lookup in it). *)
Theorem checkout_spec (payload : CheckoutRequest.t) (o : ObjectId) (s : db) :
  ObjectId_parse o = Some o -> stored "order" o s = None ->
  exists r s',
    checkout payload o s = (Return (Some r), s') /\
    fields r !! "status" = Some (VStr "paid") /\
    fields r !! "subtotal" = Some (VFloat (CheckoutRequest.subtotal payload)) /\
    fields r !! "download_links" =
      Some (VList (map (fun i => VStr ("/downloads/" +:+ OrderItem.product_id i +:+ ".zip"))
                     (CheckoutRequest.items payload))) /\
    fields r !! "invoice_url" = Some (VStr "/invoices/mock.pdf") /\
    stored "order" o s' = Some {| _id := Some o; fields := order_doc payload |} /\
    s' !! "product" = s !! "product" /\
    (forall products,
       checkout payload o (<["product" := products]> s) =
         (Return (Some r), <["product" := products]> s')).
Proof.
  intros Hwf Hfresh. rewrite (checkout_fresh payload o s Hwf Hfresh).
  destruct (order_doc_lookup payload) as (H1 & H2 & H3 & H4).
  eexists _, _. split; [reflexivity|].
  split; [by apply serialize_doc_keeps|]. split; [by apply serialize_doc_keeps|].
  split; [by apply serialize_doc_keeps|]. split; [by apply serialize_doc_keeps|].
  split; [|split].
  - unfold stored. rewrite collection_insert, head_filter_app_none by done.
    cbn [List.filter]. by rewrite matches_id, bool_decide_eq_true_2.
  - by rewrite lookup_insert_ne.
  - intros products.
    assert (Hc : collection (<["product" := products]> s) "order" = collection s "order").
    { by apply collection_insert_ne. }
    rewrite checkout_fresh; [|done|by unfold stored; rewrite Hc].
    rewrite Hc. f_equal. by apply insert_insert_ne.
Qed.

Lemma checkout_spec_witness :
  exists r s',
    checkout sample_checkout sample_oid catalogue = (Return (Some r), s') /\
    fields r !! "status" = Some (VStr "paid") /\
    fields r !! "subtotal" = Some (VFloat 10) /\
    fields r !! "download_links" = Some (VList [VStr "/downloads/p1.zip"]).
Proof.
  destruct (checkout_spec sample_checkout sample_oid catalogue)
    as (r & s' & H & H1 & H2 & H3 & _); [reflexivity|reflexivity|].
  exists r, s'. by repeat split.
Defined.

(** ** Listings *)

Lemma list_products_unfold (category style color q : option string) (limit : option Z) (s : db) :
  list_products category style color q limit s =
    if forallb (fun kc => cond_supported (snd kc)) (product_query category style color q)
    then (Return (map serialize_doc
                    (cursor_limit (default 24 limit)
                       (List.filter (matches (product_query category style color q))
                          (collection s "product")))), s)
    else (Raise OperationFailure, s).
Proof.
  unfold list_products, get_documents, find, bind. fold (product_query category style color q).
  by destruct (forallb _ _).
Qed.

Lemma list_projects_unfold (email status : option string) (limit : option Z) (s : db) :
  list_projects email status limit s =
    (Return (map serialize_doc
               (cursor_limit (default 50 limit)
                  (List.filter (matches (project_query email status))
                     (collection s "project")))), s).
Proof.
  unfold list_projects, find, bind. fold (project_query email status).
  replace (forallb _ (project_query email status)) with true; [done|].
  unfold project_query, clause.
  by destruct (truthy email), (truthy status).
Qed.

Lemma matches_app (q1 q2 : query) (d : doc) :
  matches (q1 ++ q2)%list d = matches q1 d && matches q2 d.
Proof. unfold matches. apply forallb_app. Qed.


Lemma clause_passes (k : string) (param : option string) (d : doc) :
  String.eqb k "_id" = false ->
  matches (clause k EqStr param) d = true <-> passes k param d.
Proof.
  intros Hk. unfold clause, passes.
  destruct (truthy param) as [c|]; [|split; done].
  unfold matches, doc_get. simpl. rewrite Hk, andb_true_r. split.
  - intros H c' [= <-].
    destruct (fields d !! k) as [[| |x| | | | | |]|]; try done.
    by apply String.eqb_eq in H as ->.
  - intros H. rewrite (H c eq_refl). simpl. apply String.eqb_refl.
Qed.





(** ** The free-text query *)

Lemma compile_plain (q : list ascii) :
  forallb plain_char q = true -> regex_compile q = Some (map Lit q).
Proof.
  induction q as [|c q IH]; [done|]. cbn [forallb regex_compile map].
  intros [Hc Hq]%andb_true_iff. rewrite (IH Hq).
  unfold plain_char in Hc. apply andb_true_iff in Hc as [Hm Ha].
  unfold compile_char.
  destruct (Ascii.eqb_spec c ".") as [->|_]; [by vm_compute in Hm|].
  apply negb_true_iff in Hm. by rewrite Hm, Ha.
Qed.

Lemma match_here_literal (q t : list ascii) :
  match_here true (map Lit q) t = true <->
  exists post, map lower t = (map lower q ++ post)%list.
Proof.
  revert t. induction q as [|c q IH]; intros t.
  - split; [|done]. intros _. by exists (map lower t).
  - destruct t as [|x t]; cbn [map match_here].
    + split; [done|]. by intros [post H].
    + unfold char_eq. rewrite andb_true_iff, IH, Ascii.eqb_eq. split.
      * intros [-> [post ->]]. by exists post.
      * intros [post H]. injection H as -> H. split; [done|]. by exists post.
Qed.

Lemma regex_search_literal (q t : list ascii) :
  regex_search true (map Lit q) t = true <->
  exists pre post, map lower t = (pre ++ map lower q ++ post)%list.
Proof.
  induction t as [|x t IH]; cbn [regex_search]; rewrite orb_true_iff, match_here_literal.
  - split.
    + intros [[post H]|]; [|done]. by exists [], post.
    + intros (pre & post & H). left.
      destruct pre; [by exists post|done].
  - rewrite IH. split.
    + intros [[post H]|(pre & post & H)].
      * by exists [], post.
      * exists (lower x :: pre), post. cbn [map app]. by rewrite H.
    + intros (pre & post & H). destruct pre as [|p pre].
      * left. by exists post.
      * right. cbn [map app] in H. injection H as _ H. by exists pre, post.
Qed.

Lemma plain_text_spec (q : string) :
  plain_text q = true ->
  truthy (Some q) = Some q /\ forallb plain_char (list_ascii_of_string q) = true.
Proof.
  unfold plain_text. intros [Hq Hp]%andb_true_iff. split; [|done].
  simpl. apply negb_true_iff in Hq. by rewrite Hq.
Qed.

(** The title clause of a plain query selects the documents whose title is
    a string that contains the query, letter case ignored. *)
Lemma title_clause_plain (q : string) (d : doc) :
  plain_text q = true ->
  matches (clause "title" (fun s => Regex s "i") (Some q)) d = true <->
  exists t, fields d !! "title" = Some (VStr t) /\ contains_ci q t.
Proof.
  intros [Ht Hp]%plain_text_spec. unfold clause. rewrite Ht.
  unfold matches, doc_get, contains_ci. simpl. rewrite andb_true_r.
  rewrite (compile_plain _ Hp). split.
  - destruct (fields d !! "title") as [[| |t| | | | | |]|]; try done.
    intros H. exists t. split; [done|]. by apply regex_search_literal.
  - intros (t & -> & H). by apply regex_search_literal.
Qed.

Lemma plain_query_supported (category style color : option string) (q : string) :
  plain_text q = true ->
  forallb (fun kc => cond_supported (snd kc)) (product_query category style color (Some q)) = true.
Proof.
  intros [Ht Hp]%plain_text_spec. unfold product_query, clause. rewrite Ht.
  rewrite !forallb_app. cbn [forallb cond_supported snd].
  rewrite (compile_plain _ Hp).
  by destruct (truthy category), (truthy style), (truthy color).
Qed.

(** C7, counterexample: the query [.] is read as a pattern and selects a
    product whose title has no dot in it. *)
Lemma list_products_reads_q_as_pattern :
  exists docs r,
    fst (list_products None None None (Some ".") None catalogue) = Return docs /\
    r ∈ docs /\
    fields r !! "title" = Some (VStr "Icon Set") /\
    ~ contains_ci "." "Icon Set".
Proof.
  eexists _, (serialize_doc (product "65a1b2c3d4e5f60718293a02" "Icon Set" true 4.5)).
  split; [reflexivity|]. split; [|split].
  - apply list_elem_of_In. cbn. right. left. reflexivity.
  - by vm_compute.
  - intros (pre & post & H).
    assert (Hin : In "."%char (map lower (list_ascii_of_string "Icon Set"))).
    { rewrite H. apply in_or_app. right. apply in_or_app. left. by left. }
    vm_compute in Hin. intuition discriminate.
Qed.

(** C7, amended: when [q] is a non-empty text of ASCII characters none of
    which is a regular-expression metacharacter, [list_products] returns the
    serializations of the first [limit] (24 by default), in store order, of
    exactly the products that pass the category, style and color filters and
    whose title contains [q] as a substring, letter case ignored.  (In
    general [q] is a regular expression.) *)
Theorem list_products_plain_query
    (category style color : option string) (q : string) (limit : option Z) (s : db) :
  plain_text q = true ->
  exists docs,
    list_products category style color (Some q) limit s =
      (Return (map serialize_doc (cursor_limit (default 24 limit) docs)), s) /\
    sublist docs (collection s "product") /\
    (forall d, d ∈ docs <->
       d ∈ collection s "product" /\
       passes "category" category d /\ passes "style" style d /\ passes "color" color d /\
       exists t, fields d !! "title" = Some (VStr t) /\ contains_ci q t).
Proof.
  intros Hq. rewrite list_products_unfold, (plain_query_supported _ _ _ _ Hq).
  eexists. split; [reflexivity|]. split; [apply filter_sublist|].
  intros d. rewrite list_elem_of_In, filter_In, <- list_elem_of_In.
  unfold product_query. rewrite !matches_app, !andb_true_iff.
  rewrite !clause_passes by done. by rewrite (title_clause_plain q d Hq).
Qed.

Lemma list_products_plain_query_witness :
  exists docs,
    list_products None None None (Some "logo") None catalogue =
      (Return (map serialize_doc (cursor_limit 24 docs)), catalogue) /\
    product "65a1b2c3d4e5f60718293a01" "Logo Pack Deluxe" true 3.5 ∈ docs /\
    product "65a1b2c3d4e5f60718293a02" "Icon Set" true 4.5 ∉ docs.
Proof.
  destruct (list_products_plain_query None None None "logo" None catalogue)
    as (docs & H & _ & Hd); [reflexivity|].
  exists docs. split; [exact H|]. split.
  - apply Hd. split; [apply list_elem_of_In; left; reflexivity|].
    repeat split; try done. exists "Logo Pack Deluxe". split; [reflexivity|].
    by exists [], (list_ascii_of_string " pack deluxe").
  - intros (_ & _ & _ & _ & t & Ht & Hc)%Hd.
    vm_compute in Ht. injection Ht as <-.
    apply regex_search_literal in Hc. by vm_compute in Hc.
Defined.

(** The example of the specification: [q = "logo"] selects the product
    titled [Logo Pack Deluxe] and not the one titled [Icon Set]. *)
Lemma list_products_logo_example :
  exists r,
    fst (list_products None None None (Some "logo") None catalogue) = Return [r] /\
    fields r !! "title" = Some (VStr "Logo Pack Deluxe") /\
    contains_ci "logo" "Logo Pack Deluxe" /\
    ~ contains_ci "logo" "Icon Set".
Proof.
  eexists. split; [reflexivity|]. split; [by vm_compute|]. split.
  - by exists [], (list_ascii_of_string " pack deluxe").
  - intros H. apply regex_search_literal in H. by vm_compute in H.
Qed.

(** * Further properties *)

(** ** Identifier texts *)

Lemma lower_idemp (c : ascii) : lower (lower c) = lower c.
Proof. by destruct c as [[] [] [] [] [] [] [] []]. Qed.

Lemma is_hex_lower (c : ascii) : is_hex (lower c) = is_hex c.
Proof. by destruct c as [[] [] [] [] [] [] [] []]. Qed.

Lemma chars_lower_string (s : string) :
  list_ascii_of_string (lower_string s) = map lower (list_ascii_of_string s).
Proof. unfold lower_string. apply list_ascii_of_string_of_list_ascii. Qed.

Lemma string_length_chars (s : string) :
  String.length s = length (list_ascii_of_string s).
Proof. induction s as [|c s IH]; [done|]. cbn. by rewrite IH. Qed.

Lemma lower_string_idemp (s : string) : lower_string (lower_string s) = lower_string s.
Proof.
  unfold lower_string at 1. rewrite chars_lower_string, map_map.
  unfold lower_string. f_equal. apply map_ext. intros c. apply lower_idemp.
Qed.

Lemma is_space_lower (c : ascii) : is_space (lower c) = is_space c.
Proof. by destruct c as [[] [] [] [] [] [] [] []]. Qed.

Lemma is_hex_not_space (c : ascii) : is_hex c = true -> is_space c = false.
Proof. by destruct c as [[] [] [] [] [] [] [] []]. Qed.

(** Induction along the steps of [fromhex]: one character or two at a time. *)
Lemma pair_induction (P : list ascii -> Prop) :
  P [] -> (forall c, P [c]) ->
  (forall c d t, P t -> P (d :: t) -> P (c :: d :: t)) ->
  forall t, P t.
Proof.
  intros H0 H1 H2 t.
  assert (H : P t /\ forall c, P (c :: t)); [|by destruct H].
  induction t as [|d t [IH1 IH2]]; [by split|].
  split; [apply IH2|]. intros c. by apply H2.
Qed.

Lemma fromhex_lower (t : list ascii) : fromhex (map lower t) = fromhex t.
Proof.
  induction t as [|c|c d t IH1 IH2] using pair_induction; [done| |].
  - cbn. rewrite is_space_lower. by destruct (is_space c).
  - change (map lower (c :: d :: t)) with (lower c :: map lower (d :: t)).
    cbn [fromhex]. rewrite is_space_lower, IH2.
    destruct (is_space c); [done|].
    cbn [map]. by rewrite !is_hex_lower, !lower_idemp, IH1.
Qed.

(** What [fromhex] returns: the characters that are not whitespace, in lower
    case; and [fromhex] returns its own output unchanged. *)
Lemma fromhex_digits (t r : list ascii) :
  fromhex t = Some r ->
  r = map lower (List.filter (fun c => negb (is_space c)) t) /\ fromhex r = Some r.
Proof.
  revert r. induction t as [|c|c d t IH1 IH2] using pair_induction; intros r.
  - by intros [= <-].
  - cbn. by destruct (is_space c); [intros [= <-]|].
  - cbn [fromhex List.filter]. destruct (is_space c) eqn:Ec; [apply IH2|].
    destruct (is_hex c) eqn:Hc; [|done]. destruct (is_hex d) eqn:Hd; [|done].
    cbn [andb negb]. destruct (fromhex t) as [r'|]; [|done]. intros [= <-].
    destruct (IH1 r' eq_refl) as [-> Hr]. rewrite (is_hex_not_space d Hd). cbn [negb map].
    split; [done|]. cbn [fromhex].
    rewrite is_space_lower, Ec, !is_hex_lower, Hc, Hd, !lower_idemp. cbn [andb].
    by rewrite Hr.
Qed.

Lemma ObjectId_parse_same_lower (p1 p2 : string) :
  lower_string p1 = lower_string p2 -> ObjectId_parse p1 = ObjectId_parse p2.
Proof.
  intros H. apply (f_equal list_ascii_of_string) in H. rewrite !chars_lower_string in H.
  unfold ObjectId_parse. rewrite !string_length_chars.
  rewrite <- (length_map lower (list_ascii_of_string p1)), H, length_map.
  by rewrite <- (fromhex_lower (list_ascii_of_string p1)), H, fromhex_lower.
Qed.

(** X1: an identifier that [PyObjectId.validate] reads from a text prints as
    the characters of the text that are not whitespace, in lower case;
    validating the identifier itself returns it; and validating its printed
    form returns it again when that form has 24 digits, and raises
    [ValueError] when it is shorter (the text held whitespace). *)
Theorem validate_round_trip (s : string) (o : ObjectId) :
  PyObjectId_validate (AText s) = Valid o ->
  list_ascii_of_string (ObjectId_str o) =
    map lower (List.filter (fun c => negb (is_space c)) (list_ascii_of_string s)) /\
  PyObjectId_validate (AnObjectId o) = Valid o /\
  PyObjectId_validate (AText (ObjectId_str o)) =
    if (String.length (ObjectId_str o) =? 24)%nat then Valid o
    else ValueError "Invalid ObjectId".
Proof.
  unfold PyObjectId_validate, ObjectId_is_valid, ObjectId_str. intros H.
  destruct (ObjectId_parse s) as [o'|] eqn:Hp; [|done]. cbn [negb] in H.
  injection H as ->. unfold ObjectId_parse in Hp.
  destruct (String.length s =? 24)%nat; [|done].
  destruct (fromhex (list_ascii_of_string s)) as [r|] eqn:Hr; [|done].
  injection Hp as <-. destruct (fromhex_digits _ _ Hr) as [Hd Hf].
  rewrite list_ascii_of_string_of_list_ascii.
  split; [done|]. split; [done|].
  unfold ObjectId_parse. rewrite list_ascii_of_string_of_list_ascii, Hf.
  by destruct (String.length (string_of_list_ascii r) =? 24)%nat.
Qed.

Lemma validate_round_trip_witness :
  PyObjectId_validate (AText (ObjectId_str sample_oid)) = Valid sample_oid /\
  PyObjectId_validate (AText "0000000000000000") = ValueError "Invalid ObjectId".
Proof.
  split.
  - refine (proj2 (proj2 (validate_round_trip "65A1B2C3D4E5F60718293A4B" sample_oid _))).
    reflexivity.
  - refine (proj2 (proj2 (validate_round_trip "00 00 00 00 00 00 00 00 "
                            "0000000000000000" _))).
    reflexivity.
Defined.

Lemma ObjectId_new_same_lower (p1 p2 : string) :
  lower_string p1 = lower_string p2 -> ObjectId_new p1 = ObjectId_new p2.
Proof. intros H. unfold ObjectId_new. by rewrite (ObjectId_parse_same_lower p1 p2 H). Qed.

(** X2: the handlers that take an identifier in the path ignore the letter
    case of its hexadecimal digits: two texts that agree up to case get the
    same answer and the same effect, in every store. *)
Theorem identifier_case_is_ignored (p1 p2 : string) :
  lower_string p1 = lower_string p2 ->
  get_product p1 = get_product p2 /\
  (forall url now, upload_draft p1 url now = upload_draft p2 url now) /\
  (forall payload t1 t2, add_comment p1 payload t1 t2 = add_comment p2 payload t1 t2) /\
  (forall now, approve_project p1 now = approve_project p2 now).
Proof.
  intros H. pose proof (ObjectId_new_same_lower p1 p2 H) as Hn.
  unfold get_product, upload_draft, add_comment, approve_project.
  rewrite Hn. done.
Qed.

Lemma identifier_case_is_ignored_witness :
  get_product "65A1B2C3D4E5F60718293A4B" = get_product sample_oid.
Proof.
  apply (identifier_case_is_ignored "65A1B2C3D4E5F60718293A4B" sample_oid). reflexivity.
Defined.

(** ** Workflow calls: failures, comments, composition *)

(** A workflow call either raises and leaves the store as it is, or returns
    the serialization of the updated project. *)
Lemma exec_cases (c : call) (s : db) :
  (succeeds c s = false /\ after c s = s) \/
  exists o d d',
    ObjectId_parse (fst (call_target c)) = Some o /\
    stored "project" o s = Some d /\
    apply_update (snd (call_target c)) d = Some d' /\
    exec c s = (Return (Some (serialize_doc d')), after c s) /\
    stored "project" o (after c s) = Some d' /\
    (forall o', o' <> o -> stored "project" o' (after c s) = stored "project" o' s) /\
    (forall n, n <> "project" -> after c s !! n = s !! n).
Proof.
  unfold succeeds, after. rewrite exec_workflow_call.
  pose proof (workflow_call_spec (fst (call_target c)) (snd (call_target c)) s) as H.
  destruct (ObjectId_parse (fst (call_target c))) as [o|]; [|left; by rewrite H].
  destruct (stored "project" o s) as [d|] eqn:Hd; [|left; by rewrite H].
  destruct (apply_update (snd (call_target c)) d) as [d'|] eqn:Hu; [|left; by rewrite H].
  destruct H as (s' & -> & Hs & Ho & Hn). right. by exists o, d, d'.
Qed.

(** X3: a workflow call that raises (malformed identifier, unknown project,
    rejected update) leaves the whole store exactly as it was. *)
Theorem failed_call_changes_nothing (c : call) (s : db) :
  succeeds c s = false -> after c s = s.
Proof.
  intros Hf. destruct (exec_cases c s) as [[_ H]|(o & d & d' & _ & _ & _ & He & _)]; [done|].
  unfold succeeds in Hf. by rewrite He in Hf.
Qed.

Lemma failed_call_changes_nothing_witness :
  after (UploadDraft other_oid "https://x/d1.png" morning) sample_store = sample_store /\
  after (AddComment "not-an-id" sample_comment morning evening) sample_store = sample_store.
Proof.
  split; apply failed_call_changes_nothing; reflexivity.
Defined.

(** X4: [upload_draft] and [add_comment] raise [InvalidId] on a text that
    [ObjectId()] rejects (not 24 characters long, or not accepted by
    [bytes.fromhex]) and answer 404 on an accepted identifier that no
    project has; the store is unchanged in both cases. *)
Theorem upload_and_comment_errors (pid : string) (s : db) :
  (ObjectId_parse pid = None ->
   forall url now payload t1 t2,
     upload_draft pid url now s = (Raise InvalidId, s) /\
     add_comment pid payload t1 t2 s = (Raise InvalidId, s)) /\
  (forall o, ObjectId_parse pid = Some o -> stored "project" o s = None ->
   forall url now payload t1 t2,
     upload_draft pid url now s = (Raise (HTTPException 404 "Project not found"), s) /\
     add_comment pid payload t1 t2 s = (Raise (HTTPException 404 "Project not found"), s)).
Proof.
  split.
  - intros Hp url now payload t1 t2.
    pose proof (workflow_call_spec pid (upload_draft_update url now) s) as H1.
    pose proof (workflow_call_spec pid (add_comment_update payload t1 t2) s) as H2.
    rewrite Hp in H1, H2. by split.
  - intros o Hp Hs url now payload t1 t2.
    pose proof (workflow_call_spec pid (upload_draft_update url now) s) as H1.
    pose proof (workflow_call_spec pid (add_comment_update payload t1 t2) s) as H2.
    rewrite Hp, Hs in H1, H2. by split.
Qed.

Lemma upload_and_comment_errors_witness :
  upload_draft "not-an-id" "https://x/d1.png" morning sample_store =
    (Raise InvalidId, sample_store) /\
  add_comment other_oid sample_comment morning evening sample_store =
    (Raise (HTTPException 404 "Project not found"), sample_store).
Proof.
  split.
  - destruct (upload_and_comment_errors "not-an-id" sample_store) as [H _].
    apply (H eq_refl "https://x/d1.png" morning sample_comment morning evening).
  - destruct (upload_and_comment_errors other_oid sample_store) as [_ H].
    apply (H other_oid eq_refl eq_refl "https://x/d1.png" morning sample_comment morning evening).
Defined.

Lemma apply_update_comment_fields (payload : ProofCommentIn.t) (t1 t2 : datetime)
    (d : doc) (l : list value) :
  fields d !! "comments" = Some (VList l) ->
  apply_update (add_comment_update payload t1 t2) d =
    Some {| _id := _id d;
            fields := <["updated_at" := VDate t2]>
                        (<["comments" := VList (l ++ [comment_doc payload t1])]> (fields d)) |}.
Proof. intros H. unfold apply_update, add_comment_update. cbn. by rewrite H. Qed.

Lemma apply_update_upload_fields (url : string) (now : datetime) (d : doc) (l : list value) :
  fields d !! "drafts" = Some (VList l) ->
  apply_update (upload_draft_update url now) d =
    Some {| _id := _id d;
            fields := <["updated_at" := VDate now]>
                        (<["drafts" := VList (l ++ [draft url now])]> (fields d)) |}.
Proof. intros H. unfold apply_update, upload_draft_update. cbn. by rewrite H. Qed.

(** X5: on a stored project whose [comments] is an array, [add_comment]
    returns, appends behind the comments already there one comment made of
    the payload's author, message and coordinates, the first clock reading
    as [created_at] and the status [open], sets [updated_at] to the second
    clock reading and leaves every other field as it is. *)
Theorem add_comment_appends (pid : string) (o : ObjectId) (payload : ProofCommentIn.t)
    (t1 t2 : datetime) (s : db) (d : doc) (l : list value) :
  ObjectId_parse pid = Some o -> stored "project" o s = Some d ->
  fields d !! "comments" = Some (VList l) ->
  exists d' m,
    fst (add_comment pid payload t1 t2 s) = Return (Some (serialize_doc d')) /\
    stored "project" o (snd (add_comment pid payload t1 t2 s)) = Some d' /\
    fields d' !! "comments" = Some (VList (l ++ [VDict m])) /\
    m !! "author" = Some (VStr (ProofCommentIn.author payload)) /\
    m !! "message" = Some (VStr (ProofCommentIn.message payload)) /\
    m !! "x" = Some (opt_value VFloat (ProofCommentIn.x payload)) /\
    m !! "y" = Some (opt_value VFloat (ProofCommentIn.y payload)) /\
    m !! "created_at" = Some (VDate t1) /\
    m !! "status" = Some (VStr "open") /\
    fields d' !! "updated_at" = Some (VDate t2) /\
    (forall k, k <> "comments" -> k <> "updated_at" -> fields d' !! k = fields d !! k).
Proof.
  intros Hp Hd Hl.
  change (add_comment pid payload t1 t2)
    with (workflow_call pid (add_comment_update payload t1 t2)).
  pose proof (workflow_call_spec pid (add_comment_update payload t1 t2) s) as H.
  rewrite Hp, Hd, (apply_update_comment_fields payload t1 t2 d l Hl) in H.
  destruct H as (s' & -> & Hs & _). cbn [fst snd].
  eexists _, _. split; [reflexivity|]. split; [exact Hs|]. cbn [fields].
  split; [by rewrite lookup_insert_ne, lookup_insert_eq|].
  repeat (split; [by vm_compute|]).
  split; [by rewrite lookup_insert_eq|].
  intros k H1 H2. by rewrite !lookup_insert_ne.
Qed.

Lemma add_comment_appends_witness :
  exists d' m,
    stored "project" sample_oid
      (snd (add_comment sample_oid sample_comment morning evening sample_store)) = Some d' /\
    fields d' !! "comments" = Some (VList ([] ++ [VDict m])) /\
    m !! "status" = Some (VStr "open").
Proof.
  destruct (add_comment_appends sample_oid sample_oid sample_comment morning evening
              sample_store {| _id := Some sample_oid; fields := project_doc sample_project |} [])
    as (d' & m & _ & Hs & Hc & _ & _ & _ & _ & _ & Hst & _);
    [reflexivity|reflexivity|reflexivity|].
  by exists d', m.
Defined.

Lemma not_workflow_field (k : string) :
  k ∉ workflow_fields ->
  k <> "drafts" /\ k <> "comments" /\ k <> "updated_at" /\ k <> "status" /\ k <> "approved_at".
Proof. unfold workflow_fields. rewrite !not_elem_of_cons. tauto. Qed.

(** An update of a workflow call writes workflow fields only. *)
Lemma apply_update_other_fields (c : call) (d d' : doc) (k : string) :
  apply_update (snd (call_target c)) d = Some d' -> k ∉ workflow_fields ->
  fields d' !! k = fields d !! k.
Proof.
  intros Hu (H1 & H2 & H3 & H4 & H5)%not_workflow_field.
  destruct c as [p url t|p payload t1 t2|p t]; cbn [call_target snd] in Hu.
  - apply apply_update_upload in Hu as (l & _ & ->). by rewrite !lookup_insert_ne.
  - apply apply_update_comment in Hu as (l & ->). by rewrite !lookup_insert_ne.
  - rewrite apply_update_approve in Hu. injection Hu as <-. cbn [fields].
    by rewrite !lookup_insert_ne.
Qed.

Lemma after_keeps_stored (c : call) (s : db) (o : ObjectId) :
  is_Some (stored "project" o (after c s)) <-> is_Some (stored "project" o s).
Proof.
  destruct (exec_cases c s) as [[_ ->]|(o0 & d & d' & _ & Hd & _ & _ & Hs & Ho & _)]; [done|].
  destruct (decide (o = o0)) as [->|Hne].
  - rewrite Hs, Hd. split; eauto.
  - by rewrite Ho.
Qed.

Lemma after_other_fields (c : call) (s : db) (o : ObjectId) (k : string) :
  k ∉ workflow_fields -> project_field (after c s) o k = project_field s o k.
Proof.
  intros Hk.
  destruct (exec_cases c s) as [[_ ->]|(o0 & d & d' & _ & Hd & Hu & _ & Hs & Ho & _)]; [done|].
  unfold project_field. destruct (decide (o = o0)) as [->|Hne].
  - rewrite Hs, Hd. by eapply apply_update_other_fields.
  - by rewrite Ho.
Qed.

(** X6: no sequence of workflow calls, on whatever identifiers, creates or
    removes a project, and none changes a field of a stored project other
    than [drafts], [comments], [updated_at], [status] and [approved_at]: the
    title, the client's address, the request reference and the (empty)
    history stay as they were stored. *)
Theorem workflow_keeps_other_fields (cs : list call) (s : db) (o : ObjectId) :
  (is_Some (stored "project" o (run cs s)) <-> is_Some (stored "project" o s)) /\
  (forall k, k ∉ workflow_fields -> project_field (run cs s) o k = project_field s o k).
Proof.
  revert s. induction cs as [|c cs IH]; intros s; [done|].
  change (run (c :: cs) s) with (run cs (after c s)).
  destruct (IH (after c s)) as [H1 H2]. split.
  - by rewrite H1, after_keeps_stored.
  - intros k Hk. by rewrite H2, after_other_fields.
Qed.

Lemma workflow_keeps_other_fields_witness :
  project_field
    (run [UploadDraft sample_oid "https://x/d1.png" morning;
          AddComment sample_oid sample_comment morning evening;
          Approve sample_oid evening] sample_store) sample_oid "history"
  = project_field sample_store sample_oid "history".
Proof.
  apply workflow_keeps_other_fields.
  unfold workflow_fields. rewrite !not_elem_of_cons. repeat split; try discriminate.
  apply not_elem_of_nil.
Defined.

Lemma drafts_sent_cons (o : ObjectId) (c : call) (cs : list call) :
  drafts_sent o (c :: cs) = (drafts_sent o [c] ++ drafts_sent o cs)%list.
Proof. unfold drafts_sent. change (c :: cs) with ([c] ++ cs)%list. apply omap_app. Qed.

Lemma comments_sent_cons (o : ObjectId) (c : call) (cs : list call) :
  comments_sent o (c :: cs) = (comments_sent o [c] ++ comments_sent o cs)%list.
Proof. unfold comments_sent. change (c :: cs) with ([c] ++ cs)%list. apply omap_app. Qed.

(** One call, seen from a stored project whose drafts and comments are
    arrays. *)
Lemma step_on_project (c : call) (s : db) (o : ObjectId) (d : doc) (l1 l2 : list value) :
  stored "project" o s = Some d ->
  fields d !! "drafts" = Some (VList l1) -> fields d !! "comments" = Some (VList l2) ->
  exists d',
    stored "project" o (after c s) = Some d' /\
    fields d' !! "drafts" = Some (VList (l1 ++ drafts_sent o [c])) /\
    fields d' !! "comments" = Some (VList (l2 ++ comments_sent o [c])) /\
    (aims_at o c = true -> succeeds c s = true).
Proof.
  intros Hd H1 H2. unfold succeeds, after. rewrite exec_workflow_call.
  pose proof (workflow_call_spec (fst (call_target c)) (snd (call_target c)) s) as H.
  unfold drafts_sent, comments_sent, aims_at.
  destruct (ObjectId_parse (fst (call_target c))) as [o0|] eqn:Hp.
  - destruct (decide (o0 = o)) as [->|Hne].
    + rewrite Hd in H.
      destruct c as [p url t|p payload t1 t2|p t]; cbn [call_target fst snd] in *.
      * rewrite (apply_update_upload_fields url t d l1 H1) in H.
        destruct H as (s' & -> & Hs & _). cbn [fst snd]. eexists. split; [exact Hs|].
        cbn [fields]. repeat (rewrite lookup_insert_eq || rewrite lookup_insert_ne by done).
        rewrite H2. cbn. rewrite Hp, bool_decide_eq_true_2 by done.
        by rewrite app_nil_r.
      * rewrite (apply_update_comment_fields payload t1 t2 d l2 H2) in H.
        destruct H as (s' & -> & Hs & _). cbn [fst snd]. eexists. split; [exact Hs|].
        cbn [fields]. repeat (rewrite lookup_insert_eq || rewrite lookup_insert_ne by done).
        rewrite H1. cbn. rewrite Hp, bool_decide_eq_true_2 by done.
        by rewrite app_nil_r.
      * rewrite apply_update_approve in H.
        destruct H as (s' & -> & Hs & _). cbn [fst snd]. eexists. split; [exact Hs|].
        cbn [fields]. rewrite !lookup_insert_ne by done. rewrite H1, H2. cbn.
        by rewrite !app_nil_r.
    + assert (Hb : bool_decide (Some o0 = Some o) = false).
      { apply bool_decide_eq_false_2. congruence. }
      assert (Hst : stored "project" o
                (snd (workflow_call (fst (call_target c)) (snd (call_target c)) s)) = Some d).
      { destruct (stored "project" o0 s) as [e|]; [|by rewrite H].
        destruct (apply_update (snd (call_target c)) e) as [e'|]; [|by rewrite H].
        destruct H as (s' & -> & _ & Ho & _). cbn [snd]. rewrite Ho; done. }
      exists d. split; [exact Hst|]. rewrite Hb.
      destruct c; cbn [call_target fst snd] in *; cbn; rewrite ?Hp, ?Hb, ?app_nil_r; done.
  - rewrite H. cbn [snd fst]. exists d. split; [done|].
    rewrite bool_decide_eq_false_2 by done.
    destruct c; cbn [call_target fst snd] in *; cbn;
      rewrite ?Hp, ?bool_decide_eq_false_2, ?app_nil_r by done; done.
Qed.

Lemma run_on_project (cs : list call) (s : db) (o : ObjectId) (d : doc) (l1 l2 : list value) :
  stored "project" o s = Some d ->
  fields d !! "drafts" = Some (VList l1) -> fields d !! "comments" = Some (VList l2) ->
  succeed_on o cs s = true /\
  project_field (run cs s) o "drafts" = Some (VList (l1 ++ drafts_sent o cs)) /\
  project_field (run cs s) o "comments" = Some (VList (l2 ++ comments_sent o cs)).
Proof.
  revert s d l1 l2. induction cs as [|c cs IH]; intros s d l1 l2 Hd H1 H2.
  - unfold project_field. cbn. rewrite Hd, !app_nil_r. done.
  - destruct (step_on_project c s o d l1 l2 Hd H1 H2) as (d' & Hs & Hd1 & Hd2 & Hok).
    change (run (c :: cs) s) with (run cs (after c s)).
    destruct (IH _ _ _ _ Hs Hd1 Hd2) as (Hall & Hr1 & Hr2).
    rewrite drafts_sent_cons, comments_sent_cons, !app_assoc. split; [|done].
    cbn [succeed_on]. rewrite Hall, andb_true_r.
    destruct (aims_at o c) eqn:Ha; [by apply Hok|done].
Qed.

(** X7: on a project created by [create_project], after any sequence of
    workflow calls (uploads, comments and approvals in any interleaving, on
    this and on other identifiers) every call that names the project has
    returned, [drafts] holds exactly the drafts uploaded to it, in call
    order, and [comments] exactly the comments sent to it, in call order:
    drafts and comments grow independently of each other and of approval. *)
Theorem drafts_and_comments_compose (payload : ProjectCreateIn.t) (o : ObjectId)
    (s : db) (cs : list call) :
  ObjectId_parse o = Some o -> stored "project" o s = None ->
  succeed_on o cs (snd (create_project payload o s)) = true /\
  project_field (run cs (snd (create_project payload o s))) o "drafts"
    = Some (VList (drafts_sent o cs)) /\
  project_field (run cs (snd (create_project payload o s))) o "comments"
    = Some (VList (comments_sent o cs)).
Proof.
  intros Hwf Hfresh.
  destruct (create_project_fresh payload o s Hwf Hfresh) as (s' & -> & Hs & _).
  cbn [snd]. apply (run_on_project cs s' o _ [] [] Hs); by vm_compute.
Qed.

Lemma drafts_and_comments_compose_witness :
  project_field
    (run [UploadDraft sample_oid "https://x/d1.png" morning;
          AddComment sample_oid sample_comment morning evening;
          Approve other_oid evening;
          UploadDraft "65A1B2C3D4E5F60718293A4B" "https://x/d2.png" evening]
       sample_store) sample_oid "drafts"
  = Some (VList [draft "https://x/d1.png" morning; draft "https://x/d2.png" evening]).
Proof.
  refine (proj1 (proj2 (drafts_and_comments_compose sample_project sample_oid ∅ _ _ _)));
    reflexivity.
Defined.

(** ** Identifiers in the store *)

Lemma update_first_ids (p : doc -> bool) (f : doc -> option doc) (l l' : list doc) (n : nat) :
  (forall d d', f d = Some d' -> _id d' = _id d) ->
  update_first p f l = Some (n, l') -> map _id l' = map _id l.
Proof.
  intros Hf. revert n l'. induction l as [|d l IH]; intros n l' H; cbn in H.
  - by injection H as _ <-.
  - destruct (p d).
    + destruct (f d) as [d'|] eqn:Hd; [|done]. injection H as _ <-.
      cbn. by rewrite (Hf _ _ Hd).
    + destruct (update_first p f l) as [[m l'']|]; [|done]. injection H as _ <-.
      cbn. by rewrite (IH _ _ eq_refl).
Qed.

Lemma update_one_ids (name : string) (q : query) (u : update) (s : db) :
  (forall n, ids (snd (update_one name q u s)) n = ids s n) /\
  (forall n, n <> name -> snd (update_one name q u s) !! n = s !! n).
Proof.
  unfold update_one. destruct (forallb _ q); [|done].
  destruct (update_first _ _ _) as [[[|m] l]|] eqn:Hu; try done. cbn [snd].
  apply update_first_ids in Hu; [|apply apply_update_id]. split.
  - intros n. unfold ids. destruct (decide (n = name)) as [->|Hn].
    + by rewrite collection_insert.
    + by rewrite collection_insert_ne.
  - intros n Hn. by rewrite lookup_insert_ne.
Qed.

Lemma workflow_call_store (pid : string) (u : update) (s : db) :
  snd (workflow_call pid u s) = s \/
  exists o, snd (workflow_call pid u s) = snd (update_one "project" [("_id", EqOid o)] u s).
Proof.
  unfold workflow_call, bind, ObjectId_new.
  destruct (ObjectId_parse pid) as [o|]; [|by left]. right. exists o. cbn [ret].
  destruct (update_one "project" [("_id", EqOid o)] u s) as [[[|n]|e] s']; done.
Qed.

(** X8: a workflow call never adds, removes or reorders documents: the
    identifiers of every collection, in store order, are the same after the
    call, and every collection other than the projects is left untouched;
    so identifiers that were unique stay unique. *)
Theorem workflow_keeps_identifiers (cs : list call) (s : db) :
  (forall name, ids (run cs s) name = ids s name) /\
  (forall name, name <> "project" -> run cs s !! name = s !! name) /\
  (unique_ids s -> unique_ids (run cs s)).
Proof.
  assert (H : (forall name, ids (run cs s) name = ids s name) /\
              (forall name, name <> "project" -> run cs s !! name = s !! name)).
  { revert s. induction cs as [|c cs IH]; intros s; [done|].
    change (run (c :: cs) s) with (run cs (after c s)).
    destruct (IH (after c s)) as [H1 H2].
    assert (Hc : (forall name, ids (after c s) name = ids s name) /\
                 (forall name, name <> "project" -> after c s !! name = s !! name)).
    { rewrite after_unfold.
      destruct (workflow_call_store (fst (call_target c)) (snd (call_target c)) s)
        as [->|[o ->]]; [done|]. apply update_one_ids. }
    destruct Hc as [Hc1 Hc2]. split.
    - intros name. by rewrite H1, Hc1.
    - intros name Hn. by rewrite H2, Hc2. }
  destruct H as [H1 H2]. split; [done|]. split; [done|].
  intros Hu name. rewrite H1. apply Hu.
Qed.

Lemma workflow_keeps_identifiers_witness :
  unique_ids
    (run [UploadDraft sample_oid "https://x/d1.png" morning; Approve sample_oid evening]
       sample_store).
Proof.
  apply workflow_keeps_identifiers. intros name. unfold ids, collection.
  destruct (decide (name = "project")) as [->|Hn].
  - vm_compute. repeat constructor. intros H. inversion H.
  - unfold sample_store.
    destruct (create_project_fresh sample_project sample_oid ∅)
      as (s' & -> & _ & Hs); [reflexivity|reflexivity|].
    cbn [snd]. rewrite (Hs name Hn), lookup_empty. constructor.
Defined.

Lemma stored_none_not_in_ids (name : string) (o : ObjectId) (s : db) :
  stored name o s = None -> Some o ∉ ids s name.
Proof.
  intros H%stored_none_existsb. unfold ids.
  induction (collection s name) as [|d l IH]; [apply not_elem_of_nil|].
  cbn [existsb] in H. apply orb_false_iff in H as [Hd Hl].
  cbn [map]. apply not_elem_of_cons. split; [|by apply IH].
  rewrite matches_id in Hd. apply bool_decide_eq_false in Hd. congruence.
Qed.

Lemma stored_is_none_or_some (name : string) (o : ObjectId) (s : db) :
  stored name o s = None \/
  existsb (fun d => matches [("_id", EqOid o)] d) (collection s name) = true.
Proof.
  unfold stored. induction (collection s name) as [|d l IH]; [by left|].
  cbn [List.filter existsb]. destruct (matches _ d); [by right|]. exact IH.
Qed.

(** The shape the four creating handlers share. *)
Lemma create_and_read (name : string) (data : gmap string value) (o : ObjectId) (s : db) :
  let h := (let* i := create_document name data o in
            let* oid := ObjectId_new i in
            let* saved := find_one name [("_id", EqOid oid)] in
            ret (serialize_doc_opt saved)) in
  (stored name o s = None ->
   snd (h s) = <[name := (collection s name ++ [ {| _id := Some o; fields := data |} ])%list]> s /\
   (ObjectId_parse o = Some o ->
    fst (h s) = Return (Some (serialize_doc {| _id := Some o; fields := data |})))) /\
  (stored name o s <> None -> h s = (Raise DuplicateKeyError, s)).
Proof.
  cbn zeta. unfold create_document, bind, insert_one. split.
  - intros Hfresh. rewrite (stored_none_existsb _ _ _ Hfresh). cbn [ret].
    unfold ObjectId_new, ObjectId_str. split.
    + destruct (ObjectId_parse o); reflexivity.
    + intros ->. cbn [ret]. rewrite find_by_id. cbn [fst]. unfold stored.
      rewrite collection_insert, head_filter_app_none by done.
      cbn [List.filter]. by rewrite matches_id, bool_decide_eq_true_2.
  - intros Hs. destruct (stored_is_none_or_some name o s) as [H | ->]; done.
Qed.

Lemma create_and_read_unique (name : string) (data : gmap string value) (o : ObjectId)
    (s : db) (h : M (option doc)) :
  h = (let* i := create_document name data o in
       let* oid := ObjectId_new i in
       let* saved := find_one name [("_id", EqOid oid)] in
       ret (serialize_doc_opt saved)) ->
  unique_ids s -> unique_ids (snd (h s)).
Proof.
  intros -> Hu. destruct (create_and_read name data o s) as [Hf Hd].
  destruct (stored name o s) as [d|] eqn:Hs.
  - rewrite Hd by done. exact Hu.
  - destruct (Hf eq_refl) as [-> _]. intros n. unfold ids.
    destruct (decide (n = name)) as [->|Hn].
    + rewrite collection_insert, map_app. cbn [map].
      apply NoDup_app. split; [apply Hu|]. split; [|apply NoDup_singleton].
      intros x Hx ->%list_elem_of_singleton.
      by apply (stored_none_not_in_ids name o s Hs).
    + rewrite collection_insert_ne by done. apply Hu.
Qed.

(** X9: every handler that writes keeps identifiers unique within each
    collection: the four creating handlers ([create_product], [checkout],
    [request_custom], [create_project]), whatever identifier the insert is
    given, and every workflow call. *)
Theorem handlers_keep_unique_ids (s : db) :
  unique_ids s ->
  (forall payload o, unique_ids (snd (create_product payload o s))) /\
  (forall payload o, unique_ids (snd (checkout payload o s))) /\
  (forall payload o, unique_ids (snd (request_custom payload o s))) /\
  (forall payload o, unique_ids (snd (create_project payload o s))) /\
  (forall c, unique_ids (after c s)).
Proof.
  intros Hu. repeat split; intros.
  - by eapply create_and_read_unique.
  - by eapply create_and_read_unique.
  - by eapply create_and_read_unique.
  - by eapply create_and_read_unique.
  - intros name. unfold ids. rewrite after_unfold.
    destruct (workflow_call_store (fst (call_target c)) (snd (call_target c)) s)
      as [->|[o ->]]; [apply Hu|].
    destruct (update_one_ids "project" [("_id", EqOid o)] (snd (call_target c)) s) as [H _].
    fold (ids (snd (update_one "project" [("_id", EqOid o)] (snd (call_target c)) s)) name).
    rewrite H. apply Hu.
Qed.

Lemma handlers_keep_unique_ids_witness :
  unique_ids (snd (create_product sample_product sample_oid catalogue)) /\
  unique_ids (snd (create_product sample_product "65a1b2c3d4e5f60718293a01" catalogue)) /\
  unique_ids (after (Approve "65a1b2c3d4e5f60718293a02" morning) catalogue).
Proof.
  assert (Hu : unique_ids catalogue).
  { intros name. unfold ids, collection, catalogue.
    destruct (decide (name = "product")) as [->|Hn].
    - rewrite lookup_singleton_eq. cbn [default from_option map product _id].
      repeat (apply NoDup_cons_2; [rewrite ?not_elem_of_cons; repeat split;
                                   [discriminate..|apply not_elem_of_nil]|]).
      apply NoDup_nil_2.
    - rewrite lookup_singleton_ne by done. constructor. }
  destruct (handlers_keep_unique_ids catalogue Hu) as (H1 & _ & _ & _ & H5).
  split; [apply H1|]. split; [apply H1|apply H5].
Defined.

(** ** Creating and reading back *)

Lemma stored_after_insert (name : string) (o o' : ObjectId) (data : gmap string value) (s : db) :
  stored name o s = None ->
  stored name o'
    (<[name := (collection s name ++ [ {| _id := Some o; fields := data |} ])%list]> s)
  = if decide (o' = o) then Some {| _id := Some o; fields := data |} else stored name o' s.
Proof.
  intros Hfresh. unfold stored in *. rewrite collection_insert.
  destruct (decide (o' = o)) as [->|Hne].
  - rewrite head_filter_app_none by done. cbn [List.filter].
    by rewrite matches_id, bool_decide_eq_true_2.
  - apply head_filter_app_last. rewrite matches_id.
    apply bool_decide_eq_false_2. simpl. congruence.
Qed.

Lemma product_dict_no_datetime (payload : ProductIn.t) (k : string) (v : value) :
  ProductIn.dict payload !! k = Some v -> convert_datetime v = v.
Proof.
  unfold ProductIn.dict. rewrite !lookup_insert, lookup_singleton.
  repeat case_decide; intros [= <-]; try done; unfold opt_value; by case_match.
Qed.

(** X10: [create_product] with a fresh, well-formed identifier returns a
    document whose [id] is the text of the identifier and whose other fields
    are the fields of the payload, unchanged; [get_product] on that [id]
    then returns the very same document; and what [get_product] answers for
    any other identifier is what it answered before. *)
Theorem create_product_then_get (payload : ProductIn.t) (o : ObjectId) (s : db) :
  ObjectId_parse o = Some o -> stored "product" o s = None ->
  exists r s',
    create_product payload o s = (Return (Some r), s') /\
    fields r !! "id" = Some (VStr (ObjectId_str o)) /\
    (forall k v, ProductIn.dict payload !! k = Some v -> fields r !! k = Some v) /\
    get_product (ObjectId_str o) s' = (Return r, s') /\
    (forall pid, ObjectId_parse pid <> Some o ->
       fst (get_product pid s') = fst (get_product pid s)).
Proof.
  intros Hwf Hfresh.
  destruct (create_and_read "product" (ProductIn.dict payload) o s) as [H _].
  destruct (H Hfresh) as [Hs Hr]. specialize (Hr Hwf).
  fold (create_product payload o) in Hs, Hr.
  destruct (create_product payload o s) as [res s'] eqn:Hc. cbn [fst snd] in *. subst res s'.
  eexists _, _. split; [reflexivity|]. split; [|split; [|split]].
  - by rewrite serialize_doc_lookup_id.
  - intros k v Hv. rewrite serialize_doc_lookup; cbn [fields].
    + rewrite Hv. cbn. by rewrite (product_dict_no_datetime payload k v Hv).
    + intros ->. by vm_compute in Hv.
  - pose proof (get_product_spec (ObjectId_str o)
      (<["product" := (collection s "product" ++
           [ {| _id := Some o; fields := ProductIn.dict payload |} ])%list]> s)) as Hg.
    unfold ObjectId_str in *. rewrite Hwf, stored_after_insert in Hg by done.
    by rewrite decide_True in Hg.
  - intros pid Hp.
    pose proof (get_product_spec pid
      (<["product" := (collection s "product" ++
           [ {| _id := Some o; fields := ProductIn.dict payload |} ])%list]> s)) as Hg.
    pose proof (get_product_spec pid s) as Hg0.
    destruct (ObjectId_parse pid) as [o'|]; [|by rewrite Hg, Hg0].
    rewrite stored_after_insert in Hg by done.
    rewrite decide_False in Hg by congruence.
    destruct (stored "product" o' s); by rewrite Hg, Hg0.
Qed.

Lemma create_product_then_get_witness :
  exists r s',
    create_product sample_product sample_oid catalogue = (Return (Some r), s') /\
    fields r !! "title" = Some (VStr "Logo Pack Deluxe") /\
    get_product sample_oid s' = (Return r, s').
Proof.
  destruct (create_product_then_get sample_product sample_oid catalogue)
    as (r & s' & Hc & _ & Hk & Hg & _); [reflexivity|reflexivity|].
  exists r, s'. split; [done|]. split; [|done]. by apply Hk.
Defined.

Lemma custom_request_lookup (payload : CustomRequestIn.t) :
  custom_request_doc payload !! "status" = Some (VStr "new") /\
  custom_request_doc payload !! "revision_round" = Some (VInt 0) /\
  custom_request_doc payload !! "project_id" = Some VNone /\
  custom_request_doc payload !! "name" = Some (VStr (CustomRequestIn.name payload)) /\
  custom_request_doc payload !! "email" = Some (VStr (CustomRequestIn.email payload)) /\
  custom_request_doc payload !! "project_type" =
    Some (VStr (CustomRequestIn.project_type payload)) /\
  custom_request_doc payload !! "references" =
    Some (VList (map VStr (CustomRequestIn.references payload))).
Proof. by vm_compute. Qed.

(** X11: [request_custom] with a fresh, well-formed identifier stores and
    returns a request with [status = "new"], [revision_round = 0] and
    [project_id = None] beside the payload's fields; it writes the
    [customrequest] collection only, so no project is created or linked. *)
Theorem request_custom_spec (payload : CustomRequestIn.t) (o : ObjectId) (s : db) :
  ObjectId_parse o = Some o -> stored "customrequest" o s = None ->
  exists r s',
    request_custom payload o s = (Return (Some r), s') /\
    fields r !! "id" = Some (VStr (ObjectId_str o)) /\
    fields r !! "status" = Some (VStr "new") /\
    fields r !! "revision_round" = Some (VInt 0) /\
    fields r !! "project_id" = Some VNone /\
    fields r !! "name" = Some (VStr (CustomRequestIn.name payload)) /\
    fields r !! "email" = Some (VStr (CustomRequestIn.email payload)) /\
    fields r !! "project_type" = Some (VStr (CustomRequestIn.project_type payload)) /\
    fields r !! "references" = Some (VList (map VStr (CustomRequestIn.references payload))) /\
    (forall name, name <> "customrequest" -> s' !! name = s !! name).
Proof.
  intros Hwf Hfresh.
  destruct (create_and_read "customrequest" (custom_request_doc payload) o s) as [H _].
  destruct (H Hfresh) as [Hs Hr]. specialize (Hr Hwf).
  fold (request_custom payload o) in Hs, Hr.
  destruct (request_custom payload o s) as [res s'] eqn:Hc. cbn [fst snd] in *. subst res s'.
  destruct (custom_request_lookup payload) as (H1 & H2 & H3 & H4 & H5 & H6 & H7).
  eexists _, _. split; [reflexivity|].
  split; [by rewrite serialize_doc_lookup_id|].
  do 7 (split; [by apply serialize_doc_keeps|]).
  intros name Hn. by rewrite lookup_insert_ne.
Qed.

Lemma request_custom_spec_witness :
  exists r s',
    request_custom sample_request sample_oid sample_store = (Return (Some r), s') /\
    fields r !! "project_id" = Some VNone /\
    s' !! "project" = sample_store !! "project".
Proof.
  destruct (request_custom_spec sample_request sample_oid sample_store)
    as (r & s' & Hc & _ & _ & _ & Hp & _ & _ & _ & _ & Hn); [reflexivity|reflexivity|].
  exists r, s'. split; [done|]. split; [done|]. by apply Hn.
Defined.

(** ** What serialization returns *)

(** X12: in a serialized document no top-level field is a [datetime]; a
    field that holds a list or a dictionary is returned as stored, so a
    [datetime] nested in it is not converted; the keys of a non-empty
    document are kept and [id] is added; and a stored field named [id] is
    lost: the output is the same as if the document had no such field. *)
Theorem serialize_doc_fields (d : doc) :
  (forall k v t, fields (serialize_doc d) !! k = Some v -> v <> VDate t) /\
  (forall k l, k <> "id" -> fields d !! k = Some (VList l) ->
     fields (serialize_doc d) !! k = Some (VList l)) /\
  (forall k m, k <> "id" -> fields d !! k = Some (VDict m) ->
     fields (serialize_doc d) !! k = Some (VDict m)) /\
  (doc_is_empty d = false ->
     dom (fields (serialize_doc d)) = {["id"]} ∪ dom (fields d)) /\
  (forall o, _id d = Some o ->
     serialize_doc d = serialize_doc {| _id := _id d; fields := delete "id" (fields d) |}).
Proof.
  split; [|split; [|split; [|split]]].
  - intros k v t Hk ->. unfold serialize_doc in Hk.
    destruct (doc_is_empty d) eqn:E.
    + apply doc_is_empty_spec in E as [_ E]. by rewrite E in Hk.
    + cbn [fields] in Hk. rewrite lookup_fmap in Hk.
      destruct (<["id":=VStr (py_str (_id d))]> (fields d) !! k) as [[]|]; done.
  - intros k l Hk H. by apply serialize_doc_keeps.
  - intros k m Hk H. by apply serialize_doc_keeps.
  - intros E. unfold serialize_doc. rewrite E. cbn [fields].
    by rewrite dom_fmap_L, dom_insert_L.
  - intros o Ho. unfold serialize_doc, doc_is_empty. cbn [_id fields]. rewrite Ho.
    f_equal. by rewrite insert_delete_eq.
Qed.

Lemma serialize_doc_fields_witness :
  fields (serialize_doc sample_doc) !! "created_at" <> Some (VDate morning) /\
  serialize_doc sample_doc =
    serialize_doc {| _id := _id sample_doc; fields := delete "id" (fields sample_doc) |}.
Proof.
  destruct (serialize_doc_fields sample_doc) as (H1 & _ & _ & _ & H5). split.
  - intros H. by apply (H1 _ _ morning H).
  - by apply (H5 sample_oid).
Defined.

(** X13: what [upload_draft] returns on a stored project whose [drafts] is
    an array: the project with [id] the text of its identifier and
    [updated_at] as the ISO text of the call's time, while the new draft, at
    the end of [drafts], still carries [uploaded_at] as a [datetime]
    ([serialize_doc] converts top-level fields only). *)
Theorem upload_draft_returns (pid : string) (o : ObjectId) (url : string) (now : datetime)
    (s : db) (d : doc) (l : list value) :
  ObjectId_parse pid = Some o -> stored "project" o s = Some d ->
  fields d !! "drafts" = Some (VList l) ->
  exists r,
    fst (upload_draft pid url now s) = Return (Some r) /\
    _id r = None /\
    fields r !! "id" = Some (VStr (ObjectId_str o)) /\
    fields r !! "updated_at" = Some (VStr (isoformat now)) /\
    fields r !! "drafts" =
      Some (VList (l ++ [VDict {[ "url" := VStr url; "uploaded_at" := VDate now ]}])).
Proof.
  intros Hp Hd Hl.
  destruct (upload_draft_step pid o url now s d l Hp Hd Hl) as (d' & -> & Hs & Hf).
  apply stored_elem in Hs as [Hid _].
  assert (E : doc_is_empty d' = false) by (unfold doc_is_empty; by rewrite Hid).
  exists (serialize_doc d'). cbn [fst]. split; [done|].
  split; [apply serialize_doc_id|].
  split; [by rewrite serialize_doc_lookup_id, Hid|].
  rewrite !serialize_doc_lookup, Hf by done.
  rewrite lookup_insert_eq, lookup_insert_ne, lookup_insert_eq by done. done.
Qed.

Lemma upload_draft_returns_witness :
  exists r,
    fst (upload_draft sample_oid "https://x/d1.png" morning sample_store) = Return (Some r) /\
    fields r !! "updated_at" = Some (VStr "2024-03-09T07:05:00.001500+00:00").
Proof.
  destruct (upload_draft_returns sample_oid sample_oid "https://x/d1.png" morning sample_store
              {| _id := Some sample_oid; fields := project_doc sample_project |} [])
    as (r & Hr & _ & _ & Hu & _); [reflexivity|reflexivity|reflexivity|].
  exists r. split; [done|]. rewrite Hu. by vm_compute.
Defined.

(** ** Listings: selection, limits, letter case *)

(** X14: [list_projects] leaves the store as it is and returns, in store
    order and cut by the limit (50 by default), the serializations of
    exactly the stored projects whose [client_email] and [status] are the
    given texts (a parameter that is absent or empty selects nothing). *)
Theorem list_projects_spec (email status : option string) (limit : option Z) (s : db) :
  exists docs,
    list_projects email status limit s =
      (Return (map serialize_doc (cursor_limit (default 50 limit) docs)), s) /\
    sublist docs (collection s "project") /\
    (forall d, d ∈ docs <->
       d ∈ collection s "project" /\
       passes "client_email" email d /\ passes "status" status d).
Proof.
  rewrite list_projects_unfold. eexists. split; [reflexivity|].
  split; [apply filter_sublist|].
  intros d. rewrite list_elem_of_In, filter_In, <- list_elem_of_In.
  unfold project_query. rewrite matches_app, andb_true_iff.
  by rewrite !clause_passes.
Qed.

Lemma cursor_limit_length (n : Z) (l : list doc) :
  (length (cursor_limit n l) <= length l)%nat /\
  (n <> 0 -> (length (cursor_limit n l) <= Z.abs_nat n)%nat).
Proof.
  unfold cursor_limit. destruct (Z.eqb_spec n 0) as [->|Hn].
  - split; [done|]. by intros [].
  - rewrite length_take. split; [|intros _]; apply Nat.le_min_r || apply Nat.le_min_l.
Qed.

(** X15: a listing never returns more documents than its limit: at most 24
    products, 8 featured products and 50 projects when no limit is given,
    and at most [|n|] for a limit [n] other than zero. *)
Theorem listings_respect_limit (s : db) :
  (forall category style color q limit docs,
     fst (list_products category style color q limit s) = Return docs ->
     (limit = None -> (length docs <= 24)%nat) /\
     (forall n, limit = Some n -> n <> 0 -> (length docs <= Z.abs_nat n)%nat)) /\
  (forall limit docs,
     fst (featured_products limit s) = Return docs ->
     (limit = None -> (length docs <= 8)%nat) /\
     (forall n, limit = Some n -> n <> 0 -> (length docs <= Z.abs_nat n)%nat)) /\
  (forall email status limit docs,
     fst (list_projects email status limit s) = Return docs ->
     (limit = None -> (length docs <= 50)%nat) /\
     (forall n, limit = Some n -> n <> 0 -> (length docs <= Z.abs_nat n)%nat)).
Proof.
  split; [|split].
  - intros category style color q limit docs H.
    rewrite list_products_unfold in H. destruct (forallb _ _); [|done].
    cbn [fst] in H. injection H as <-. rewrite length_map. split.
    + intros ->. by apply (cursor_limit_length 24).
    + intros n -> Hn. by apply cursor_limit_length.
  - intros limit docs H. unfold featured_products, find, bind in H.
    cbn [forallb cond_supported snd andb ret fst] in H.
    injection H as <-. rewrite length_map. split.
    + intros ->. by apply (cursor_limit_length 8).
    + intros n -> Hn. by apply cursor_limit_length.
  - intros email status limit docs H.
    rewrite list_projects_unfold in H.
    cbn [fst] in H. injection H as <-. rewrite length_map. split.
    + intros ->. by apply (cursor_limit_length 50).
    + intros n -> Hn. by apply cursor_limit_length.
Qed.

Lemma listings_respect_limit_witness :
  exists docs,
    fst (featured_products (Some (-1)) catalogue) = Return docs /\ (length docs <= 1)%nat.
Proof.
  eexists. split; [reflexivity|].
  destruct (listings_respect_limit catalogue) as (_ & Hf & _).
  destruct (Hf (Some (-1)) _ eq_refl) as [_ Hn]. by apply (Hn (-1)).
Defined.

Lemma compile_char_lower (c : ascii) :
  compile_char (lower c) = lower_atom <$> compile_char c.
Proof. by destruct c as [[] [] [] [] [] [] [] []]. Qed.

Lemma regex_compile_lower (p : list ascii) :
  regex_compile (map lower p) = map lower_atom <$> regex_compile p.
Proof.
  induction p as [|c p IH]; [done|]. cbn [map regex_compile].
  rewrite compile_char_lower, IH.
  by destruct (compile_char c), (regex_compile p).
Qed.

Lemma match_here_lower (r : list atom) (t : list ascii) :
  match_here true (map lower_atom r) t = match_here true r t.
Proof.
  revert t. induction r as [|a r IH]; intros t; [done|].
  destruct a, t; cbn [map lower_atom match_here]; try done.
  - unfold char_eq. by rewrite lower_idemp, IH.
  - by rewrite IH.
Qed.

Lemma regex_search_lower (r : list atom) (t : list ascii) :
  regex_search true (map lower_atom r) t = regex_search true r t.
Proof.
  induction t as [|x t IH]; cbn [regex_search]; rewrite match_here_lower; [done|].
  by rewrite IH.
Qed.

Lemma lower_string_empty (q : string) : String.eqb (lower_string q) "" = String.eqb q "".
Proof. by destruct q. Qed.

(** In lower case the title clause selects the same documents. *)
Lemma title_clause_lower (q : string) (d : doc) :
  matches (clause "title" (fun s => Regex s "i") (Some (lower_string q))) d =
  matches (clause "title" (fun s => Regex s "i") (Some q)) d.
Proof.
  unfold clause. cbn [truthy]. rewrite lower_string_empty.
  destruct (String.eqb q ""); [done|].
  unfold matches. cbn [forallb fst snd holds]. f_equal.
  destruct (doc_get d "title") as [[| |t| | | | | |]|]; try done.
  rewrite chars_lower_string, regex_compile_lower.
  destruct (regex_compile (list_ascii_of_string q)) as [r|]; [|done].
  cbn. apply regex_search_lower.
Qed.

Lemma title_clause_supported_lower (q : string) :
  forallb (fun kc => cond_supported (snd kc))
    (clause "title" (fun s => Regex s "i") (Some (lower_string q))) =
  forallb (fun kc => cond_supported (snd kc))
    (clause "title" (fun s => Regex s "i") (Some q)).
Proof.
  unfold clause. cbn [truthy]. rewrite lower_string_empty.
  destruct (String.eqb q ""); [done|].
  cbn [forallb snd cond_supported]. f_equal.
  rewrite chars_lower_string, regex_compile_lower.
  by destruct (regex_compile (list_ascii_of_string q)).
Qed.

Lemma list_products_lower_query (category style color : option string) (q : string)
    (limit : option Z) (s : db) :
  list_products category style color (Some (lower_string q)) limit s =
  list_products category style color (Some q) limit s.
Proof.
  rewrite !list_products_unfold. unfold product_query.
  rewrite !forallb_app, title_clause_supported_lower.
  destruct (_ && _); [|done]. do 4 f_equal.
  apply filter_ext. intros d. by rewrite !matches_app, title_clause_lower.
Qed.

(** X16: the free-text query ignores the letter case of [q] itself: for a
    pattern of the modelled fragment (plain ASCII characters and dots), two
    queries that agree up to case return the same listing. *)
Theorem query_case_is_ignored (category style color : option string) (q1 q2 : string)
    (limit : option Z) (s : db) :
  cond_supported (Regex q1 "i") = true ->
  lower_string q1 = lower_string q2 ->
  cond_supported (Regex q2 "i") = true /\
  list_products category style color (Some q1) limit s =
  list_products category style color (Some q2) limit s.
Proof.
  intros Hs Hq. split.
  - cbn [cond_supported] in *. apply bool_decide_eq_true in Hs. apply bool_decide_eq_true.
    assert (H : is_Some (regex_compile (list_ascii_of_string (lower_string q2)))).
    { rewrite <- Hq, chars_lower_string, regex_compile_lower.
      destruct Hs as [r ->]. by eexists. }
    rewrite chars_lower_string, regex_compile_lower in H.
    destruct (regex_compile (list_ascii_of_string q2)); [by eexists|].
    by destruct H.
  - by rewrite <- (list_products_lower_query _ _ _ q1),
               <- (list_products_lower_query _ _ _ q2), Hq.
Qed.

Lemma query_case_is_ignored_witness :
  list_products None None None (Some "LoGo.P") None catalogue =
  list_products None None None (Some "logo.p") None catalogue.
Proof.
  refine (proj2 (query_case_is_ignored None None None "LoGo.P" "logo.p" None catalogue _ _));
    reflexivity.
Defined.

(** ** Creating handlers and the store order *)

Lemma create_and_read_appends (name : string) (data : gmap string value) (o : ObjectId)
    (s : db) (h : M (option doc)) :
  h = (let* i := create_document name data o in
       let* oid := ObjectId_new i in
       let* saved := find_one name [("_id", EqOid oid)] in
       ret (serialize_doc_opt saved)) ->
  (stored name o s = None ->
   collection (snd (h s)) name = (collection s name ++ [ {| _id := Some o; fields := data |} ])%list /\
   (forall n, n <> name -> snd (h s) !! n = s !! n)) /\
  (stored name o s <> None -> h s = (Raise DuplicateKeyError, s)).
Proof.
  intros ->. destruct (create_and_read name data o s) as [Hf Hd]. split; [|exact Hd].
  intros Hfresh. destruct (Hf Hfresh) as [-> _]. split.
  - apply collection_insert.
  - intros n Hn. by rewrite lookup_insert_ne.
Qed.

(** X17: each creating handler ([create_product], [checkout],
    [request_custom], [create_project]) given an identifier that its
    collection does not hold yet puts exactly one document, under that
    identifier, behind the documents already in the collection, and leaves
    those documents and every other collection as they are; given an
    identifier already present it raises the driver's [DuplicateKeyError]
    and changes nothing. *)
Theorem creating_handlers_append (o : ObjectId) (s : db) :
  (forall p,
     (stored "product" o s = None -> appended "product" o s (snd (create_product p o s))) /\
     (stored "product" o s <> None -> create_product p o s = (Raise DuplicateKeyError, s))) /\
  (forall p,
     (stored "order" o s = None -> appended "order" o s (snd (checkout p o s))) /\
     (stored "order" o s <> None -> checkout p o s = (Raise DuplicateKeyError, s))) /\
  (forall p,
     (stored "customrequest" o s = None ->
      appended "customrequest" o s (snd (request_custom p o s))) /\
     (stored "customrequest" o s <> None ->
      request_custom p o s = (Raise DuplicateKeyError, s))) /\
  (forall p,
     (stored "project" o s = None -> appended "project" o s (snd (create_project p o s))) /\
     (stored "project" o s <> None -> create_project p o s = (Raise DuplicateKeyError, s))).
Proof.
  assert (H : forall name data (h : M (option doc)),
            h = (let* i := create_document name data o in
                 let* oid := ObjectId_new i in
                 let* saved := find_one name [("_id", EqOid oid)] in
                 ret (serialize_doc_opt saved)) ->
            (stored name o s = None -> appended name o s (snd (h s))) /\
            (stored name o s <> None -> h s = (Raise DuplicateKeyError, s))).
  { intros name data h Hh.
    destruct (create_and_read_appends name data o s h Hh) as [Hf Hd]. split; [|done].
    intros Hfresh. destruct (Hf Hfresh) as [Hc Hn]. split; [|done].
    eexists. split; [|exact Hc]. done. }
  split; [|split; [|split]]; intros p; by eapply H.
Qed.

Lemma creating_handlers_append_witness :
  ids (snd (create_product sample_product sample_oid catalogue)) "product" =
    (ids catalogue "product" ++ [Some sample_oid])%list /\
  checkout sample_checkout sample_oid (snd (checkout sample_checkout sample_oid catalogue)) =
    (Raise DuplicateKeyError, snd (checkout sample_checkout sample_oid catalogue)).
Proof.
  split.
  - destruct (creating_handlers_append sample_oid catalogue) as (H & _).
    destruct (H sample_product) as [Hf _].
    destruct Hf as [(d & Hid & Hc) _]; [reflexivity|].
    unfold ids. rewrite Hc, map_app. cbn [map]. by rewrite Hid.
  - destruct (creating_handlers_append sample_oid
                (snd (checkout sample_checkout sample_oid catalogue))) as (_ & H & _).
    destruct (H sample_checkout) as [_ Hd]. apply Hd. by vm_compute.
Defined.

Lemma project_doc_lookup_email (payload : ProjectCreateIn.t) :
  project_doc payload !! "client_email" = Some (VStr (ProjectCreateIn.client_email payload)) /\
  project_doc payload !! "title" = Some (VStr (ProjectCreateIn.title payload)).
Proof. by vm_compute. Qed.

Lemma passes_own_value (k : string) (param : option string) (d : doc) (v : string) :
  fields d !! k = Some (VStr v) -> param = None \/ param = Some v -> passes k param d.
Proof.
  intros Hk [-> | ->] c; [done|]. cbn [truthy].
  destruct (String.eqb v ""); [done|]. by intros [= <-].
Qed.

(** X18: a project just created is found by [list_projects]: with no
    limit (limit 0), filtered or not on its own client address and on the
    status [in_progress], the listing ends with the very document that
    [create_project] returned. *)
Theorem created_project_is_listed (payload : ProjectCreateIn.t) (o : ObjectId) (s : db)
    (email status : option string) :
  ObjectId_parse o = Some o -> stored "project" o s = None ->
  email = None \/ email = Some (ProjectCreateIn.client_email payload) ->
  status = None \/ status = Some "in_progress" ->
  exists docs r,
    fst (create_project payload o s) = Return (Some r) /\
    fst (list_projects email status (Some 0) (snd (create_project payload o s))) = Return docs /\
    last docs = Some r.
Proof.
  intros Hwf Hfresh He Hst.
  destruct (create_and_read "project" (project_doc payload) o s) as [H _].
  destruct (H Hfresh) as [Hs Hr]. specialize (Hr Hwf).
  fold (create_project payload o) in Hs, Hr. rewrite Hs, Hr.
  rewrite list_projects_unfold. cbn [fst]. change (default 50 (Some 0)) with 0.
  unfold cursor_limit. cbn [Z.eqb].
  rewrite collection_insert, List.filter_app. cbn [List.filter].
  assert (Hm : matches (project_query email status)
                 {| _id := Some o; fields := project_doc payload |} = true).
  { unfold project_query. rewrite matches_app, andb_true_iff.
    rewrite !clause_passes by done. split.
    - eapply passes_own_value; [apply project_doc_lookup_email|done].
    - eapply passes_own_value; [apply project_doc_lookup|done]. }
  rewrite Hm, map_app. cbn [map]. eexists _, _. split; [reflexivity|].
  split; [reflexivity|]. by rewrite last_snoc.
Qed.

Lemma created_project_is_listed_witness :
  exists docs r,
    fst (create_project sample_project sample_oid ∅) = Return (Some r) /\
    fst (list_projects (Some "client@example.com") (Some "in_progress") (Some 0) sample_store)
      = Return docs /\
    last docs = Some r.
Proof.
  apply (created_project_is_listed sample_project sample_oid ∅
           (Some "client@example.com") (Some "in_progress"));
    [reflexivity|reflexivity|by right|by right].
Defined.

(** ** The diagnostic endpoint *)

Lemma slice_prefix (n : nat) (t : list ascii) : slice n t `prefix_of` t.
Proof.
  revert n. induction t as [|c t IH]; intros n; [done|]. cbn [slice].
  destruct (is_cont c); [by apply prefix_cons|].
  destruct n; [apply prefix_nil|by apply prefix_cons].
Qed.

Lemma slice_count (n : nat) (t : list ascii) :
  (length (List.filter (fun c => negb (is_cont c)) (slice n t)) <= n)%nat.
Proof.
  revert n. induction t as [|c t IH]; intros n; cbn [slice]; [cbn; lia|].
  destruct (is_cont c) eqn:E.
  - cbn [List.filter]. rewrite E. cbn [negb]. apply IH.
  - destruct n; [cbn; lia|]. cbn [List.filter]. rewrite E. cbn [negb length].
    specialize (IH n). lia.
Qed.

(** X19: whatever the database handle is or does, [test_database] returns
    the same six keys with [backend] running, and its [database_url] and
    [database_name] say only whether the two environment variables are set
    (to a non-empty text): what the [try] block wrote to them, the database
    name among it, is always overwritten. *)
Theorem test_database_reports_environment (db_global : option handle)
    (getenv : string -> option string) :
  test_database db_global getenv !! "backend" = Some (VStr "✅ Running") /\
  test_database db_global getenv !! "database_url" =
    Some (VStr (match truthy (getenv "DATABASE_URL") with
                | Some _ => "✅ Set"
                | None => "❌ Not Set"
                end)) /\
  test_database db_global getenv !! "database_name" =
    Some (VStr (match truthy (getenv "DATABASE_NAME") with
                | Some _ => "✅ Set"
                | None => "❌ Not Set"
                end)) /\
  dom (test_database db_global getenv) =
    {[ "backend"; "database"; "database_url"; "database_name";
       "connection_status"; "collections" ]}.
Proof.
  unfold test_database.
  destruct db_global as [[[| |] [|]]|]; cbn [name_attribute list_collection_names];
    (split; [by vm_compute|]); (split; [by vm_compute|]); (split; [by vm_compute|]);
    rewrite !dom_insert_L, dom_singleton_L; set_solver.
Qed.

(** X20: the [collections] field of the diagnostic is the first ten names
    that [list_collection_names()] returned, and empty when there is no
    handle or a call on it raised; [connection_status] is [Connected]
    exactly when there is a handle whose [name] could be read; and an
    exception message is reported cut to a prefix of at most 50
    characters. *)
Theorem test_database_collections (db_global : option handle)
    (getenv : string -> option string) :
  (exists names,
     test_database db_global getenv !! "collections" = Some (VList (map VStr names)) /\
     (length names <= 10)%nat /\
     match db_global with
     | Some {| name_attribute := AttributeRaises _ |} => names = []
     | Some {| list_collection_names := inr all |} => names = take 10 all
     | _ => names = []
     end) /\
  test_database db_global getenv !! "connection_status" =
    Some (VStr (match db_global with
                | Some {| name_attribute := AttributeRaises _ |} | None => "Not Connected"
                | Some _ => "Connected"
                end)) /\
  (forall h e,
     db_global = Some h -> (forall m, name_attribute h <> AttributeRaises m) ->
     list_collection_names h = inl e ->
     test_database db_global getenv !! "database" =
       Some (VStr ("⚠️  Connected but Error: " +:+ slice_string 50 e)) /\
     list_ascii_of_string (slice_string 50 e) `prefix_of` list_ascii_of_string e /\
     (length (List.filter (fun c => negb (is_cont c))
                (list_ascii_of_string (slice_string 50 e))) <= 50)%nat).
Proof.
  split; [|split].
  - unfold test_database.
    destruct db_global as [[[| |] [|names]]|]; cbn [name_attribute list_collection_names];
      try (exists []; split; [by vm_compute|]; split; [cbn; lia|done]).
    + exists (take 10 names). split; [|split; [|done]].
      * by vm_compute.
      * rewrite length_take. lia.
    + exists (take 10 names). split; [|split; [|done]].
      * by vm_compute.
      * rewrite length_take. lia.
  - unfold test_database.
    by destruct db_global as [[[| |] [|]]|]; cbn [name_attribute list_collection_names];
      vm_compute.
  - intros h e -> Hn He. unfold slice_string.
    rewrite list_ascii_of_string_of_list_ascii.
    split; [|split; [apply slice_prefix|apply slice_count]].
    unfold test_database. rewrite He.
    destruct (name_attribute h) as [|v|m] eqn:Ha; [| |by destruct (Hn m)];
      by repeat (rewrite lookup_insert_eq || rewrite lookup_insert_ne by done).
Qed.

Lemma test_database_collections_witness :
  test_database (Some (mk_handle (Attribute "studio") (inl "connection refused")))
    (fun _ => None) !! "database"
  = Some (VStr ("⚠️  Connected but Error: " +:+ slice_string 50 "connection refused")).
Proof.
  destruct (test_database_collections
              (Some (mk_handle (Attribute "studio") (inl "connection refused")))
              (fun _ => None)) as (_ & _ & H).
  refine (proj1 (H _ "connection refused" eq_refl _ eq_refl)). intros m. discriminate.
Defined.

(** ** Timestamps and status after a sequence of calls *)

Lemma last_omap_cons {A B} (f : A -> option B) (a : A) (l : list A) :
  last (omap f (a :: l)) =
  match last (omap f l) with
  | Some b => Some b
  | None => f a
  end.
Proof.
  cbn [omap list_omap]. fold (omap f l). destruct (f a) as [b|]; [|by destruct (last _)].
  destruct (omap f l) as [|b' l'] eqn:E; [done|].
  change (last (b :: b' :: l')) with (last (b' :: l')).
  destruct (last (b' :: l')) eqn:El; [done|].
  by apply last_None in El.
Qed.

(** One call, seen from a stored project whose drafts and comments are
    arrays: what it leaves in [status], [approved_at] and [updated_at]. *)
Lemma step_times (c : call) (s : db) (o : ObjectId) (d : doc) (l1 l2 : list value) :
  stored "project" o s = Some d ->
  fields d !! "drafts" = Some (VList l1) -> fields d !! "comments" = Some (VList l2) ->
  exists d' l1' l2',
    stored "project" o (after c s) = Some d' /\
    fields d' !! "drafts" = Some (VList l1') /\
    fields d' !! "comments" = Some (VList l2') /\
    fields d' !! "approved_at" =
      match approval_time o c with
      | Some t => Some (VDate t)
      | None => fields d !! "approved_at"
      end /\
    fields d' !! "status" =
      match approval_time o c with
      | Some _ => Some (VStr "approved")
      | None => fields d !! "status"
      end /\
    fields d' !! "updated_at" =
      match update_time o c with
      | Some t => Some (VDate t)
      | None => fields d !! "updated_at"
      end.
Proof.
  intros Hd H1 H2. unfold after. rewrite exec_workflow_call.
  pose proof (workflow_call_spec (fst (call_target c)) (snd (call_target c)) s) as H.
  assert (Hsame : stored "project" o
                    (snd (workflow_call (fst (call_target c)) (snd (call_target c)) s)) = Some d ->
                  aims_at o c = false ->
                  exists d' l1' l2',
                    stored "project" o
                      (snd (workflow_call (fst (call_target c)) (snd (call_target c)) s)) = Some d' /\
                    fields d' !! "drafts" = Some (VList l1') /\
                    fields d' !! "comments" = Some (VList l2') /\
                    fields d' !! "approved_at" =
                      match approval_time o c with
                      | Some t => Some (VDate t)
                      | None => fields d !! "approved_at"
                      end /\
                    fields d' !! "status" =
                      match approval_time o c with
                      | Some _ => Some (VStr "approved")
                      | None => fields d !! "status"
                      end /\
                    fields d' !! "updated_at" =
                      match update_time o c with
                      | Some t => Some (VDate t)
                      | None => fields d !! "updated_at"
                      end).
  { intros Hst Ha. exists d, l1, l2.
    unfold approval_time, update_time. rewrite Ha. by destruct c. }
  destruct (ObjectId_parse (fst (call_target c))) as [o0|] eqn:Hp.
  - destruct (decide (o0 = o)) as [->|Hne].
    + rewrite Hd in H.
      assert (Ha : aims_at o c = true).
      { unfold aims_at. by rewrite Hp, bool_decide_eq_true_2. }
      unfold approval_time, update_time. rewrite Ha.
      destruct c as [p url t|p payload t1 t2|p t]; cbn [call_target fst snd] in *.
      * rewrite (apply_update_upload_fields url t d l1 H1) in H.
        destruct H as (s' & -> & Hs & _). cbn [fst snd]. eexists _, _, l2.
        split; [exact Hs|]. cbn [fields].
        repeat (rewrite lookup_insert_eq || rewrite lookup_insert_ne by done). done.
      * rewrite (apply_update_comment_fields payload t1 t2 d l2 H2) in H.
        destruct H as (s' & -> & Hs & _). cbn [fst snd]. eexists _, l1, _.
        split; [exact Hs|]. cbn [fields].
        repeat (rewrite lookup_insert_eq || rewrite lookup_insert_ne by done). done.
      * rewrite apply_update_approve in H.
        destruct H as (s' & -> & Hs & _). cbn [fst snd]. eexists _, l1, l2.
        split; [exact Hs|]. cbn [fields].
        repeat (rewrite lookup_insert_eq || rewrite lookup_insert_ne by done). done.
    + apply Hsame.
      * destruct (stored "project" o0 s) as [e|]; [|by rewrite H].
        destruct (apply_update (snd (call_target c)) e) as [e'|]; [|by rewrite H].
        destruct H as (s' & -> & _ & Ho & _). cbn [snd]. rewrite Ho; done.
      * unfold aims_at. rewrite Hp. apply bool_decide_eq_false_2. congruence.
  - apply Hsame; [by rewrite H|].
    unfold aims_at. rewrite Hp. by apply bool_decide_eq_false_2.
Qed.

(** X21: on a stored project whose drafts and comments are arrays (as
    [create_project] stores it), after any sequence of workflow calls
    [approved_at] is the time of the last approval sent to the project,
    [status] is [approved] as soon as there was one, and [updated_at] is the
    time of the last upload or comment sent to it (an approval does not
    refresh [updated_at]); without such a call the field is as it was. *)
Theorem last_call_decides (cs : list call) (s : db) (o : ObjectId) (d : doc)
    (l1 l2 : list value) :
  stored "project" o s = Some d ->
  fields d !! "drafts" = Some (VList l1) -> fields d !! "comments" = Some (VList l2) ->
  project_field (run cs s) o "approved_at" =
    match last_approval o cs with
    | Some t => Some (VDate t)
    | None => fields d !! "approved_at"
    end /\
  project_field (run cs s) o "status" =
    match last_approval o cs with
    | Some _ => Some (VStr "approved")
    | None => fields d !! "status"
    end /\
  project_field (run cs s) o "updated_at" =
    match last_update o cs with
    | Some t => Some (VDate t)
    | None => fields d !! "updated_at"
    end.
Proof.
  revert s d l1 l2. induction cs as [|c cs IH]; intros s d l1 l2 Hd H1 H2.
  - unfold project_field. cbn. by rewrite Hd.
  - destruct (step_times c s o d l1 l2 Hd H1 H2)
      as (d' & l1' & l2' & Hs & Hd1 & Hd2 & Ha & Hst & Hu).
    change (run (c :: cs) s) with (run cs (after c s)).
    destruct (IH _ _ _ _ Hs Hd1 Hd2) as (-> & -> & ->).
    unfold last_approval, last_update. rewrite !last_omap_cons.
    fold (last_approval o cs). fold (last_update o cs).
    rewrite Ha, Hst, Hu.
    by destruct (last_approval o cs), (last_update o cs).
Qed.

Lemma last_call_decides_witness :
  project_field
    (run [Approve sample_oid morning; UploadDraft sample_oid "https://x/d1.png" evening]
       sample_store) sample_oid "approved_at" = Some (VDate morning) /\
  project_field
    (run [UploadDraft sample_oid "https://x/d1.png" morning; Approve sample_oid evening]
       sample_store) sample_oid "updated_at" = Some (VDate morning).
Proof.
  split.
  - refine (proj1 (last_call_decides _ sample_store sample_oid
              {| _id := Some sample_oid; fields := project_doc sample_project |} [] [] _ _ _));
      reflexivity.
  - refine (proj2 (proj2 (last_call_decides _ sample_store sample_oid
              {| _id := Some sample_oid; fields := project_doc sample_project |} [] [] _ _ _)));
      reflexivity.
Defined.
